(** * Validation-task assignment in the documents admin

    A shallow embedding of [src/documents/admin.py] and
    [src/documents/forms.py]: the bulk action
    [DocumentAdmin.assign_validation_task], the form
    [AssignValidationTaskForm] it validates, and the row-level policy of
    [ValidationTaskAdmin] ([get_queryset], [has_add_permission]).

    The database is an explicit value threaded through the view; tables
    are finite maps from primary key to row.  The two Python builtins
    the code reaches through the framework ([int] on a submitted string,
    [str.strip]) and the range of integers the database accepts as a key
    are parameters of the development. *)

From stdpp Require Import gmap strings list fin_maps fin_map_dom option.

Open Scope Z_scope.
Open Scope string_scope.
Open Scope list_scope.

(* ===================================================================== *)
(** * Models *)
(* ===================================================================== *)

(** A calendar date as stored by a [DateField]. *)
Record date := Date { year : Z; month : Z; day : Z }.

#[export] Instance date_eq_dec : EqDecision date.
Proof. solve_decision. Defined.

(** A model instance loaded from the database: the primary key together
    with the row it was read from. *)
Record instance (A : Type) := Instance { pk : Z; fields : A }.
Arguments Instance {A} pk fields.
Arguments pk {A} _.
Arguments fields {A} _.

(** [django.contrib.auth.models.User], reduced to what the admin reads:
    the superuser flag and the names of the groups the user is in. *)
Module User.
Record t := mk { is_superuser : bool; groups : list string }.
End User.

(** Modelled from the spec: [documents/models.py] is not part of the
    excerpt.  A tag supplies an optional due date. *)
Module Tag.
Record t := mk { name : string; due_date : option date }.
End Tag.

(** Modelled from the spec: [documents/models.py] is not part of the
    excerpt.  A document has a mutable collection of tags; [tags] lists
    the tag keys of its rows in the many-to-many table, in insertion
    order.  [title] stands for the scalar columns that [save] writes. *)
Module Document.
Record t := mk { title : string; tags : list Z }.
End Document.

(** Modelled from the spec: [documents/models.py] is not part of the
    excerpt.  A validation task references its assignee, its creator and
    optionally a tag, carries a note and its own due date, and is linked
    to a set of documents.  ([status] and [created_at] take the model's
    defaults and are not written by the code under study.) *)
Module ValidationTask.
Record t := mk {
  assigned_to : Z;
  created_by : Z;
  tag : option Z;
  note : string;
  due_date : option date;
  documents : gset Z
}.

(** The row with its links to documents replaced. *)
Definition set_documents (docs : gset Z) (task : t) : t :=
  {| assigned_to := assigned_to task;
     created_by := created_by task;
     tag := tag task;
     note := note task;
     due_date := due_date task;
     documents := docs |}.

(** The row with another creator. *)
Definition set_created_by (creator : Z) (task : t) : t :=
  {| assigned_to := assigned_to task;
     created_by := creator;
     tag := tag task;
     note := note task;
     due_date := due_date task;
     documents := documents task |}.
End ValidationTask.

(** The tables the admin touches.  [documents_document] holds the rows
    visible through [Document.objects].  Validation tasks are kept in
    insertion order; a task is identified by its position. *)
Record DB := mkDB {
  auth_user : gmap Z User.t;
  documents_tag : gmap Z Tag.t;
  documents_document : gmap Z Document.t;
  documents_validationtask : list ValidationTask.t
}.

Definition set_documents_document (docs : gmap Z Document.t) (db : DB) : DB :=
  {| auth_user := auth_user db;
     documents_tag := documents_tag db;
     documents_document := docs;
     documents_validationtask := documents_validationtask db |}.

Definition set_documents_validationtask (tasks : list ValidationTask.t) (db : DB) : DB :=
  {| auth_user := auth_user db;
     documents_tag := documents_tag db;
     documents_document := documents_document db;
     documents_validationtask := tasks |}.

(* ===================================================================== *)
(** * Requests *)
(* ===================================================================== *)

(** [request.POST]: a [QueryDict], every key holding the list of values
    submitted under it. *)
Abbreviation QueryDict := (gmap string (list string)).

(** [QueryDict.getlist(key)]: all values, or the empty list. *)
Definition getlist (d : QueryDict) (key : string) : list string :=
  default [] (d !! key).

(** [QueryDict.get(key)]: the last value, or [None]. *)
Definition get (d : QueryDict) (key : string) : option string :=
  match d !! key with
  | Some values => list.last values
  | None => None
  end.

(** [key in request.POST]. *)
Definition contains (d : QueryDict) (key : string) : bool :=
  bool_decide (is_Some (d !! key)).

Record HttpRequest := mkRequest {
  user : instance User.t;
  POST : QueryDict
}.

(** [request.user.groups.filter(name=...).exists()]. *)
Definition in_group (u : instance User.t) (group : string) : bool :=
  bool_decide (group ∈ User.groups (fields u)).

(* ===================================================================== *)
(** * Responses *)
(* ===================================================================== *)

Inductive error_code :=
  | required
  | invalid_choice
  | null_characters_not_allowed.

#[export] Instance error_code_eq_dec : EqDecision error_code.
Proof. solve_decision. Defined.

(** The form handed to the template: unbound with its initial values, or
    bound to the submitted data with the errors found by validation. *)
Inductive form :=
  | Unbound (initial_selected_action : list string)
            (initial_assigned_to : instance User.t)
  | Bound (data : QueryDict) (errors : list (string * error_code)).

Record context := mkContext {
  ctx_form : form;
  ctx_documents : gmap Z Document.t;
  ctx_title : string
}.

Inductive HttpResponse :=
  | HttpResponseRedirect (url : string)
  | render (template : string) (ctx : context).

(** [messages.success(request, f"Validation task created for {n} documents.")];
    the message is kept as its level and the number it reports. *)
Inductive message :=
  | success (count : nat).

Inductive exception :=
  | ValueError
  | OverflowError.

(** What a call of the view leaves behind: the database, the messages
    queued for the requester, and either the response or the exception
    that left the view. *)
Record result := mkResult {
  db_after : DB;
  messages : list message;
  response : exception + HttpResponse
}.

(* ===================================================================== *)
(** * The form and the views *)
(* ===================================================================== *)

(** Does the string hold the character U+0000? *)
Fixpoint contains_nul (s : string) : bool :=
  match s with
  | EmptyString => false
  | String c s' => bool_decide (c = Ascii.zero) || contains_nul s'
  end.

Section Admin.

(** Python's [int(s)] on a submitted string; [None] stands for the
    [ValueError] it raises on text that is not an integer literal. *)
Variable int_of_str : string → option Z.

(** Python's [str.strip()]. *)
Variable py_strip : string → string.

(** The integers the database accepts as the value of a key when it runs
    a query (on SQLite, the signed 64-bit integers); a query holding
    another integer raises [OverflowError] when it is run. *)
Variable key_in_range : Z → bool.

(** ** [documents/forms.py] *)

(** The values [form.cleaned_data] holds for the three fields the view
    reads.  (The cleaned [_selected_action] is the text of the list and
    is never read: the view takes the ids from [request.POST].) *)
Record cleaned_data := mkCleaned {
  cd_assigned_to : instance User.t;
  cd_tag : instance Tag.t;
  cd_note : string
}.

(** [_selected_action = forms.CharField(widget=forms.MultipleHiddenInput)]:
    the widget reads [data.getlist(name)]; the field is required (the
    default), and the empty list is one of the field's empty values. *)
Definition clean__selected_action (data : QueryDict) : error_code + list string :=
  match getlist data "_selected_action" with
  | [] => inl required
  | values => inr values
  end.

(** [forms.ModelChoiceField(queryset=...)], required (the default): the
    widget reads [data.get(name)]; an absent or empty value is rejected
    as [required]; any other value must be the key of a row of the
    queryset ([queryset.get(pk=value)], where [ValueError] and
    [DoesNotExist] both become [invalid_choice]). *)
Definition ModelChoiceField_clean {A} (queryset : gmap Z A) (value : option string)
    : error_code + instance A :=
  match value with
  | None => inl required
  | Some "" => inl required
  | Some s =>
      match int_of_str s with
      | None => inl invalid_choice
      | Some k =>
          match queryset !! k with
          | None => inl invalid_choice
          | Some row => inr (Instance k row)
          end
      end
  end.

(** [note = forms.CharField(widget=forms.Textarea, required=False)]:
    an absent value cleans to the empty string; a present one is
    stripped, and, unless that leaves it empty, checked by the field's
    default validator, which refuses U+0000. *)
Definition clean_note (data : QueryDict) : error_code + string :=
  match get data "note" with
  | None => inr ""
  | Some "" => inr ""
  | Some s =>
      let value := py_strip s in
      if bool_decide (value = "") then inr ""
      else if contains_nul value then inl null_characters_not_allowed
      else inr value
  end.

(** The text a note cleans to when the field accepts it. *)
Definition submitted_note (data : QueryDict) : string :=
  match get data "note" with
  | None => ""
  | Some "" => ""
  | Some s => py_strip s
  end.

Definition field_errors {A} (name : string) (r : error_code + A)
    : list (string * error_code) :=
  match r with
  | inl e => [(name, e)]
  | inr _ => []
  end.

(** [AssignValidationTaskForm(data).full_clean()]: every field is
    cleaned in declaration order and every failure is recorded;
    [cleaned_data] is complete only when no field failed. *)
Definition AssignValidationTaskForm (db : DB) (data : QueryDict)
    : list (string * error_code) * option cleaned_data :=
  let selected := clean__selected_action data in
  let assigned_to := ModelChoiceField_clean (auth_user db) (get data "assigned_to") in
  let tag := ModelChoiceField_clean (documents_tag db) (get data "tag") in
  let note := clean_note data in
  ((field_errors "_selected_action" selected ++ field_errors "assigned_to" assigned_to
     ++ field_errors "tag" tag ++ field_errors "note" note)%list,
   match selected, assigned_to, tag, note with
   | inr _, inr a, inr t, inr n => Some (mkCleaned a t n)
   | _, _, _, _ => None
   end).

(** [form.is_valid()]. *)
Definition is_valid (db : DB) (data : QueryDict) : bool :=
  bool_decide ((AssignValidationTaskForm db data).1 = []).

(** ** The ORM calls of the action *)

(** [tag.due_date if tag else None]. *)
Definition due_date_of (tag : option (instance Tag.t)) : option date :=
  match tag with
  | Some t => Tag.due_date (fields t)
  | None => None
  end.

(** The keyword arguments of admin.py lines 129-135, as the row that
    [ValidationTask.objects.create] inserts; no document is linked yet. *)
Definition new_task (assigned_to : instance User.t) (created_by : instance User.t)
    (tag : option (instance Tag.t)) (note : string) : ValidationTask.t :=
  {| ValidationTask.assigned_to := pk assigned_to;
     ValidationTask.created_by := pk created_by;
     ValidationTask.tag := pk <$> tag;
     ValidationTask.note := note;
     ValidationTask.due_date := due_date_of tag;
     ValidationTask.documents := ∅ |}.

(** [ValidationTask.objects.create(...)]: appends the row and returns
    the handle of the new task. *)
Definition ValidationTask_objects_create (row : ValidationTask.t) (db : DB) : DB * nat :=
  (set_documents_validationtask (documents_validationtask db ++ [row]) db,
   length (documents_validationtask db)).

(** [Document.objects.filter(pk__in=ids)]: building the lookup converts
    every id to the key type, which raises [ValueError] on a string that
    is not an integer.  The query is not run yet: the queryset is kept as
    the keys it selects. *)
Definition Document_objects_filter_pk_in (ids : list string) : option (list Z) :=
  mapM int_of_str ids.

(** Running such a queryset.  [task.documents.set] iterates it first;
    the rows stay cached in the queryset for the loop and for [count].
    The database raises [OverflowError] on a key outside its range;
    otherwise the rows are the part of the table whose key is among the
    keys. *)
Definition fetch_all (pks : list Z) (db : DB) : option (gmap Z Document.t) :=
  if forallb key_in_range pks
  then Some (filter (λ kv, kv.1 ∈ pks) (documents_document db))
  else None.

(** [task.documents.set(documents)]: the task's links become exactly
    the given documents. *)
Definition task_documents_set (task : nat) (documents : gmap Z Document.t) (db : DB) : DB :=
  set_documents_validationtask
    (alter (ValidationTask.set_documents (dom documents)) task
           (documents_validationtask db))
    db.

(** The related manager's [add]: a row is inserted into the
    many-to-many table only for a tag the document does not carry. *)
Definition tags_add (tag : Z) (tags : list Z) : list Z :=
  if bool_decide (tag ∈ tags) then tags else tags ++ [tag].

(** [doc.tags.add(tag)]. *)
Definition doc_tags_add (doc : instance Document.t) (tag : instance Tag.t) (db : DB) : DB :=
  set_documents_document
    (alter (λ row, {| Document.title := Document.title row;
                      Document.tags := tags_add (pk tag) (Document.tags row) |})
           (pk doc) (documents_document db))
    db.

(** [doc.save()]: writes the scalar columns of the instance under its
    key (an update of the row, or an insert when the row is gone); the
    many-to-many table is not touched. *)
Definition doc_save (doc : instance Document.t) (db : DB) : DB :=
  set_documents_document
    (<[pk doc :=
         {| Document.title := Document.title (fields doc);
            Document.tags := match documents_document db !! pk doc with
                             | Some row => Document.tags row
                             | None => []
                             end |}]>
       (documents_document db))
    db.

(** The instances a queryset yields when it is iterated. *)
Definition instances {A} (queryset : gmap Z A) : list (instance A) :=
  (λ kv, Instance kv.1 kv.2) <$> map_to_list queryset.

(** ** [DocumentAdmin.assign_validation_task] *)

(** admin.py lines 123-145, the body run once the form is valid. *)
Definition apply_assignment (db : DB) (request : HttpRequest) (cd : cleaned_data) : result :=
  let assigned_to := cd_assigned_to cd in
  let tag := cd_tag cd in
  let note := cd_note cd in
  let selected_ids := getlist (POST request) "_selected_action" in
  let '(db1, task) :=
    ValidationTask_objects_create (new_task assigned_to (user request) (Some tag) note) db in
  match Document_objects_filter_pk_in selected_ids with
  | None => mkResult db1 [] (inl ValueError)
  | Some documents =>
      match fetch_all documents db1 with
      | None => mkResult db1 [] (inl OverflowError)
      | Some rows =>
          let db2 := task_documents_set task rows db1 in
          let db3 :=
            fold_left (λ db doc, doc_save doc (doc_tags_add doc tag db))
                      (instances rows) db2 in
          mkResult db3 [success (size rows)] (inr (HttpResponseRedirect "."))
      end
  end.

Definition assign_validation_task (db : DB) (request : HttpRequest)
    (queryset : gmap Z Document.t) : result :=
  let branch : result + form :=
    if contains (POST request) "apply" then
      match AssignValidationTaskForm db (POST request) with
      | ([], Some cd) => inl (apply_assignment db request cd)
      | (errors, _) => inr (Bound (POST request) errors)
      end
    else
      inr (Unbound (getlist (POST request) "_selected_action") (user request))
  in
  match branch with
  | inl done => done
  | inr form =>
      mkResult db []
        (inr (render "admin/assign_validation_task.html"
                {| ctx_form := form;
                   ctx_documents := queryset;
                   ctx_title := "Assign Validation Task" |}))
  end.

(** ** [ValidationTaskAdmin] *)

(** A queryset over the task table, before it is run: its WHERE
    condition.  [filter] restricts it, [|] joins two conditions with
    OR, [none] selects nothing. *)
Definition QuerySet := ValidationTask.t → bool.

Definition qs_all : QuerySet := λ _, true.
Definition qs_none : QuerySet := λ _, false.
Definition qs_filter (cond : ValidationTask.t → bool) (qs : QuerySet) : QuerySet :=
  λ t, qs t && cond t.
Definition qs_or (q1 q2 : QuerySet) : QuerySet :=
  λ t, q1 t || q2 t.

(** Running the query against the table. *)
Definition qs_rows (qs : QuerySet) (db : DB) : list ValidationTask.t :=
  List.filter qs (documents_validationtask db).

(** [get_documents_count]: [obj.documents.count()], the "Documents"
    column of the task list. *)
Definition get_documents_count (obj : ValidationTask.t) : nat :=
  size (ValidationTask.documents obj).

Definition get_queryset (request : HttpRequest) : QuerySet :=
  let qs := qs_all in
  if negb (User.is_superuser (fields (user request))) then
    if in_group (user request) "Staff" then
      qs_or (qs_filter (λ t, bool_decide (ValidationTask.created_by t = pk (user request))) qs)
            (qs_filter (λ t, bool_decide (ValidationTask.assigned_to t = pk (user request))) qs)
    else qs_none
  else qs.

Definition has_add_permission (request : HttpRequest) : bool :=
  if User.is_superuser (fields (user request)) || in_group (user request) "Staff"
  then true
  else false.

End Admin.

(** ** Notions used by the statements *)

(** The page of the form, as both the display phase and a rejected
    submission render it. *)
Definition form_page (f : form) (queryset : gmap Z Document.t) : HttpResponse :=
  render "admin/assign_validation_task.html"
    {| ctx_form := f; ctx_documents := queryset; ctx_title := "Assign Validation Task" |}.

(** What [doc.tags.add(tag)] followed by [doc.save()] leaves of a row. *)
Definition tagged (tag : Z) (row : Document.t) : Document.t :=
  {| Document.title := Document.title row;
     Document.tags := tags_add tag (Document.tags row) |}.

(* ===================================================================== *)
(** * A concrete instance, used by the examples *)
(* ===================================================================== *)

Module Example.

(** Integer literals as the examples use them: a non-empty run of ASCII
    digits.  Python's [int] reads these strings the same way and raises
    [ValueError] on ["abc"]. *)
Definition digit (c : Ascii.ascii) : option Z :=
  let n := Z.of_nat (Ascii.nat_of_ascii c) in
  if ((48 <=? n)%Z && (n <=? 57)%Z)%bool then Some (n - 48) else None.

Fixpoint digits (acc : Z) (s : string) : option Z :=
  match s with
  | EmptyString => Some acc
  | String c s' =>
      match digit c with
      | Some d => digits (10 * acc + d) s'
      | None => None
      end
  end.

Definition int_of_str (s : string) : option Z :=
  match s with
  | EmptyString => None
  | _ => digits 0 s
  end.

(** Stripping of the ASCII blank, enough for the notes of the examples. *)
Fixpoint lstrip (s : string) : string :=
  match s with
  | String c s' => if bool_decide (c = Ascii.ascii_of_nat 32) then lstrip s' else s
  | EmptyString => s
  end.

Definition py_strip (s : string) : string :=
  String.rev (lstrip (String.rev (lstrip s))).

(** The keys SQLite accepts: the signed 64-bit integers. *)
Definition key_in_range (k : Z) : bool :=
  bool_decide (- 2 ^ 63 ≤ k < 2 ^ 63).

Definition alice : instance User.t := Instance 1 (User.mk false ["Staff"]).
Definition bob : instance User.t := Instance 2 (User.mk false []).
Definition root : instance User.t := Instance 3 (User.mk true []).

Definition urgent : Tag.t := Tag.mk "urgent" (Some (Date 2024 6 1)).
Definition someday : Tag.t := Tag.mk "someday" None.

(** Documents 1 and 2 exist; document 2 already carries tag 7. *)
Definition db0 : DB :=
  {| auth_user := {[ 1 := fields alice; 2 := fields bob; 3 := fields root ]};
     documents_tag := {[ 7 := urgent; 8 := someday ]};
     documents_document :=
       {[ 1 := Document.mk "invoice" []; 2 := Document.mk "contract" [7] ]};
     documents_validationtask := [] |}.

(** The submission of the spec's scenario. *)
Definition post_scenario : QueryDict :=
  {[ "apply" := ["Assign"];
     "_selected_action" := ["1"; "2"; "999"];
     "assigned_to" := ["2"];
     "tag" := ["7"];
     "note" := [" please review "] ]}.

Definition post_display : QueryDict :=
  {[ "action" := ["assign_validation_task"];
     "_selected_action" := ["1"; "2"] ]}.

Definition post_no_tag : QueryDict :=
  {[ "apply" := ["Assign"];
     "_selected_action" := ["1"; "2"];
     "assigned_to" := ["2"] ]}.

Definition post_blank_assignee : QueryDict :=
  {[ "apply" := ["Assign"];
     "_selected_action" := ["1"; "2"];
     "assigned_to" := [""];
     "tag" := ["7"] ]}.

Definition post_no_ids : QueryDict :=
  {[ "apply" := ["Assign"];
     "assigned_to" := ["2"];
     "tag" := ["7"] ]}.

Definition post_unknown_ids : QueryDict :=
  {[ "apply" := ["Assign"];
     "_selected_action" := ["998"; "999"];
     "assigned_to" := ["2"];
     "tag" := ["7"] ]}.

Definition post_malformed_id : QueryDict :=
  {[ "apply" := ["Assign"];
     "_selected_action" := ["1"; "abc"];
     "assigned_to" := ["2"];
     "tag" := ["7"] ]}.

(** One id is the key of a document, the other is an integer beyond
    the range of the keys. *)
Definition post_out_of_range_id : QueryDict :=
  {[ "apply" := ["Assign"];
     "_selected_action" := ["1"; "99999999999999999999"];
     "assigned_to" := ["2"];
     "tag" := ["7"] ]}.

(** The only id is an integer beyond the range of the keys. *)
Definition post_only_out_of_range_id : QueryDict :=
  {[ "apply" := ["Assign"];
     "_selected_action" := ["99999999999999999999"];
     "assigned_to" := ["2"];
     "tag" := ["7"] ]}.

Definition view := assign_validation_task int_of_str py_strip key_in_range.

Definition request_scenario := mkRequest alice post_scenario.
Definition request_display := mkRequest alice post_display.
Definition request_no_tag := mkRequest alice post_no_tag.
Definition request_blank_assignee := mkRequest alice post_blank_assignee.
Definition request_no_ids := mkRequest alice post_no_ids.
Definition request_unknown_ids := mkRequest alice post_unknown_ids.
Definition request_malformed_id := mkRequest alice post_malformed_id.
Definition request_out_of_range_id := mkRequest alice post_out_of_range_id.
Definition request_only_out_of_range_id := mkRequest alice post_only_out_of_range_id.

(** The task the scenario creates. *)
Definition task_scenario : ValidationTask.t :=
  {| ValidationTask.assigned_to := 2;
     ValidationTask.created_by := 1;
     ValidationTask.tag := Some 7;
     ValidationTask.note := "please review";
     ValidationTask.due_date := Some (Date 2024 6 1);
     ValidationTask.documents := {[ 1; 2 ]} |}.

(** A task table for the task list: one task created by alice, one
    assigned to her, one she has no part in. *)
Definition task_for_alice : ValidationTask.t :=
  {| ValidationTask.assigned_to := 1;
     ValidationTask.created_by := 3;
     ValidationTask.tag := None;
     ValidationTask.note := "";
     ValidationTask.due_date := None;
     ValidationTask.documents := {[ 2 ]} |}.

Definition task_of_others : ValidationTask.t :=
  {| ValidationTask.assigned_to := 2;
     ValidationTask.created_by := 3;
     ValidationTask.tag := Some 8;
     ValidationTask.note := "";
     ValidationTask.due_date := None;
     ValidationTask.documents := ∅ |}.

Definition db1 : DB :=
  set_documents_validationtask [task_scenario; task_of_others; task_for_alice] db0.

(** The ids of the scenario in another order, one of them twice. *)
Definition ids_shuffled : list string := ["2"; "999"; "1"; "2"].

(** A viewer of the task list who is in no group. *)
Definition request_bob := mkRequest bob post_display.

End Example.

(* ===================================================================== *)
(** * Properties *)
(* ===================================================================== *)

Section Properties.

Variable int_of_str : string → option Z.
Variable py_strip : string → string.
Variable key_in_range : Z → bool.

Local Abbreviation Form := (AssignValidationTaskForm int_of_str py_strip).
Local Abbreviation valid := (is_valid int_of_str py_strip).
Local Abbreviation view := (assign_validation_task int_of_str py_strip key_in_range).
Local Abbreviation apply := (apply_assignment int_of_str key_in_range).
Local Abbreviation filter_pk_in := (Document_objects_filter_pk_in int_of_str).
Local Abbreviation note_of := (submitted_note py_strip).

(** ** The form *)

Lemma form_cases db data :
  (∃ cd, Form db data = ([], Some cd)) ∨
  (∃ errors, errors ≠ [] ∧ Form db data = (errors, None)).
Proof.
  unfold AssignValidationTaskForm.
  destruct (clean__selected_action data),
    (ModelChoiceField_clean int_of_str (auth_user db) (get data "assigned_to")),
    (ModelChoiceField_clean int_of_str (documents_tag db) (get data "tag")),
    (clean_note py_strip data); simpl;
    first [ left; eexists; reflexivity
          | right; eexists; split; [|reflexivity]; done ].
Qed.

Lemma valid_cleaned db data :
  valid db data = true ↔ ∃ cd, Form db data = ([], Some cd).
Proof.
  unfold is_valid. rewrite bool_decide_eq_true. split.
  - intros Hv. destruct (form_cases db data) as [?|(errors & Hne & Heq)]; [done|].
    rewrite Heq in Hv. done.
  - intros [cd ->]. done.
Qed.

Lemma invalid_errors db data :
  valid db data = false ↔ ∃ errors, errors ≠ [] ∧ Form db data = (errors, None).
Proof.
  unfold is_valid. rewrite bool_decide_eq_false. split.
  - intros Hv. destruct (form_cases db data) as [[cd Heq]|?]; [|done].
    rewrite Heq in Hv. done.
  - intros (errors & Hne & ->). done.
Qed.

(** A valid form cleaned each field without error. *)
Lemma cleaned_fields db data cd :
  Form db data = ([], Some cd) →
  getlist data "_selected_action" ≠ [] ∧
  ModelChoiceField_clean int_of_str (auth_user db) (get data "assigned_to")
    = inr (cd_assigned_to cd) ∧
  ModelChoiceField_clean int_of_str (documents_tag db) (get data "tag")
    = inr (cd_tag cd) ∧
  clean_note py_strip data = inr (cd_note cd).
Proof.
  unfold AssignValidationTaskForm, clean__selected_action.
  destruct (getlist data "_selected_action"),
    (ModelChoiceField_clean int_of_str (auth_user db) (get data "assigned_to")),
    (ModelChoiceField_clean int_of_str (documents_tag db) (get data "tag")),
    (clean_note py_strip data); simpl; intros [=]; subst; done.
Qed.

(** What a model choice field accepts: the text of the key of a row. *)
Lemma ModelChoiceField_clean_inr {A} (queryset : gmap Z A) value obj :
  ModelChoiceField_clean int_of_str queryset value = inr obj ↔
  ∃ s, value = Some s ∧ s ≠ "" ∧ int_of_str s = Some (pk obj)
       ∧ queryset !! pk obj = Some (fields obj).
Proof.
  unfold ModelChoiceField_clean. split.
  - destruct value as [[|c s]|]; try done.
    destruct (int_of_str (String c s)) as [k|] eqn:Hk; [|done].
    destruct (queryset !! k) as [row|] eqn:Hrow; [|done].
    intros [= <-]. exists (String c s). done.
  - intros (s & -> & Hs & Hk & Hrow). destruct s as [|c s]; [done|].
    rewrite Hk, Hrow. by destruct obj.
Qed.

(** ** The two outcomes of an apply-phase submission *)

Lemma view_valid db request queryset cd :
  contains (POST request) "apply" = true →
  Form db (POST request) = ([], Some cd) →
  view db request queryset = apply db request cd.
Proof. intros Ha Hf. unfold assign_validation_task. by rewrite Ha, Hf. Qed.

Lemma view_invalid db request queryset errors :
  contains (POST request) "apply" = true →
  errors ≠ [] →
  Form db (POST request) = (errors, None) →
  view db request queryset
  = mkResult db [] (inr (form_page (Bound (POST request) errors) queryset)).
Proof.
  intros Ha Hne Hf. unfold assign_validation_task. rewrite Ha, Hf.
  by destruct errors.
Qed.

Lemma view_display db request queryset :
  contains (POST request) "apply" = false →
  view db request queryset
  = mkResult db []
      (inr (form_page (Unbound (getlist (POST request) "_selected_action") (user request))
              queryset)).
Proof. intros Ha. unfold assign_validation_task. by rewrite Ha. Qed.

(** ** The loop over the linked documents *)

Lemma tags_add_elem tag tags : tag ∈ tags_add tag tags.
Proof.
  unfold tags_add. case_bool_decide; [done|].
  apply elem_of_app. right. by apply list_elem_of_singleton.
Qed.

Lemma tags_add_present tag tags : tag ∈ tags → tags_add tag tags = tags.
Proof. unfold tags_add. intros H. by rewrite bool_decide_eq_true_2. Qed.

Lemma tags_add_idemp tag tags : tags_add tag (tags_add tag tags) = tags_add tag tags.
Proof. apply tags_add_present, tags_add_elem. Qed.

Lemma tags_add_NoDup tag tags : NoDup tags → NoDup (tags_add tag tags).
Proof.
  unfold tags_add. intros Hnd. case_bool_decide; [done|].
  apply list.NoDup_app. split_and!; [done| |apply NoDup_singleton].
  intros x Hx ->%list_elem_of_singleton. done.
Qed.

Lemma tagged_idemp tag row : tagged tag (tagged tag row) = tagged tag row.
Proof. unfold tagged. simpl. by rewrite tags_add_idemp. Qed.

(** One turn of the loop, on the document table. *)
Lemma loop_step_lookup (doc : instance Document.t) (tag : instance Tag.t) db row k :
  documents_document db !! pk doc = Some row →
  Document.title row = Document.title (fields doc) →
  documents_document (doc_save doc (doc_tags_add doc tag db)) !! k
  = if decide (k = pk doc) then Some (tagged (pk tag) row)
    else documents_document db !! k.
Proof.
  intros Hrow Htitle. unfold doc_save, doc_tags_add. simpl.
  case_decide as Hk.
  - subst k. rewrite lookup_insert_eq, lookup_alter_eq, Hrow. simpl.
    unfold tagged. by rewrite Htitle.
  - rewrite lookup_insert_ne, lookup_alter_ne by done. done.
Qed.

Lemma loop_step_other (doc : instance Document.t) (tag : instance Tag.t) db :
  auth_user (doc_save doc (doc_tags_add doc tag db)) = auth_user db ∧
  documents_tag (doc_save doc (doc_tags_add doc tag db)) = documents_tag db ∧
  documents_validationtask (doc_save doc (doc_tags_add doc tag db))
  = documents_validationtask db.
Proof. done. Qed.

Lemma loop_lookup (tag : instance Tag.t) (l : list (instance Document.t)) : ∀ db,
  (∀ doc, doc ∈ l → ∃ row, documents_document db !! pk doc = Some row
                          ∧ Document.title row = Document.title (fields doc)) →
  let db' := fold_left (λ db doc, doc_save doc (doc_tags_add doc tag db)) l db in
  auth_user db' = auth_user db ∧
  documents_tag db' = documents_tag db ∧
  documents_validationtask db' = documents_validationtask db ∧
  ∀ k, documents_document db' !! k
       = if decide (k ∈ pk <$> l) then tagged (pk tag) <$> documents_document db !! k
         else documents_document db !! k.
Proof.
  induction l as [|doc l IH]; intros db Hl; cbn [fold_left].
  - by split_and!.
  - destruct (Hl doc) as (row & Hrow & Htitle); [by left|].
    set (db1 := doc_save doc (doc_tags_add doc tag db)).
    destruct (IH db1) as (Hu & Ht & Hv & Hd).
    { intros doc' Hdoc'. destruct (Hl doc') as (row' & Hrow' & Htitle'); [by right|].
      unfold db1. rewrite (loop_step_lookup _ _ _ row) by done.
      case_decide as Heq.
      - rewrite Heq in Hrow'. assert (row' = row) as -> by congruence.
        exists (tagged (pk tag) row). done.
      - exists row'. done. }
    split_and!; [by rewrite Hu|by rewrite Ht|by rewrite Hv|].
    intros k. rewrite Hd, fmap_cons. unfold db1.
    rewrite (loop_step_lookup _ _ _ row) by done.
    destruct (decide (k = pk doc)) as [->|Hne].
    + rewrite Hrow. simpl.
      rewrite (decide_True (P := pk doc ∈ pk doc :: (pk <$> l))) by left.
      case_decide; [by rewrite tagged_idemp|done].
    + case_decide as Hin.
      * rewrite decide_True; [done|by right].
      * rewrite decide_False; [done|].
        intros [->|?]%elem_of_cons; done.
Qed.

Lemma instances_elem {A} (m : gmap Z A) (x : instance A) :
  x ∈ instances m ↔ m !! pk x = Some (fields x).
Proof.
  unfold instances. rewrite list_elem_of_fmap. split.
  - intros ([k row] & -> & Hin). simpl. by apply elem_of_map_to_list.
  - intros Hx. exists (pk x, fields x). split; [by destruct x|].
    by apply elem_of_map_to_list.
Qed.

Lemma instances_pk {A} (m : gmap Z A) k :
  k ∈ pk <$> instances m ↔ is_Some (m !! k).
Proof.
  rewrite list_elem_of_fmap. split.
  - intros (x & -> & Hx%instances_elem). eauto.
  - intros [row Hrow]. exists (Instance k row). split; [done|].
    by apply instances_elem.
Qed.

(** ** The body of the action *)

(** The ids convert to keys the database accepts: the task is created
    and linked to the documents found, each of which receives the tag. *)
Lemma apply_parsed db request cd pks :
  mapM int_of_str (getlist (POST request) "_selected_action") = Some pks →
  forallb key_in_range pks = true →
  let res := apply db request cd in
  let found := filter (λ kv, kv.1 ∈ pks) (documents_document db) in
  response res = inr (HttpResponseRedirect ".") ∧
  messages res = [success (size found)] ∧
  auth_user (db_after res) = auth_user db ∧
  documents_tag (db_after res) = documents_tag db ∧
  documents_validationtask (db_after res)
  = documents_validationtask db
      ++ [ValidationTask.set_documents (dom found)
            (new_task (cd_assigned_to cd) (user request) (Some (cd_tag cd)) (cd_note cd))] ∧
  ∀ k, documents_document (db_after res) !! k
       = if decide (k ∈ pks) then tagged (pk (cd_tag cd)) <$> documents_document db !! k
         else documents_document db !! k.
Proof.
  intros Hpks Hrange. unfold apply_assignment, ValidationTask_objects_create,
    Document_objects_filter_pk_in, fetch_all. simpl. rewrite Hpks, Hrange. simpl.
  set (found := filter (λ kv, kv.1 ∈ pks) (documents_document db)).
  set (db2 := task_documents_set _ _ _).
  destruct (loop_lookup (cd_tag cd) (instances found) db2) as (Hu & Ht & Hv & Hd).
  { intros doc Hdoc%instances_elem. exists (fields doc). split; [|done].
    unfold found in Hdoc. by apply map_lookup_filter_Some in Hdoc as [? _]. }
  split_and!; [done|done|by rewrite Hu|by rewrite Ht| |].
  - rewrite Hv. unfold db2, task_documents_set. simpl.
    rewrite <- (Nat.add_0_r (length (documents_validationtask db))).
    by rewrite alter_app_r.
  - intros k. rewrite Hd. unfold db2. simpl.
    destruct (decide (k ∈ pks)) as [Hk|Hk].
    + case_decide as Hin; [done|].
      destruct (documents_document db !! k) as [row|] eqn:Hrow; [|done].
      exfalso. apply Hin, instances_pk. exists row.
      by apply map_lookup_filter_Some.
    + rewrite decide_False; [done|].
      intros [row Hrow]%instances_pk.
      by apply map_lookup_filter_Some in Hrow as [_ ?].
Qed.

(** Some id does not parse: the exception leaves the view after the
    task was created and before anything was linked or tagged. *)
Lemma apply_unparsed db request cd :
  mapM int_of_str (getlist (POST request) "_selected_action") = None →
  apply db request cd
  = mkResult
      (set_documents_validationtask
         (documents_validationtask db
            ++ [new_task (cd_assigned_to cd) (user request) (Some (cd_tag cd)) (cd_note cd)])
         db)
      [] (inl ValueError).
Proof.
  intros Hpks. unfold apply_assignment, ValidationTask_objects_create,
    Document_objects_filter_pk_in. simpl. by rewrite Hpks.
Qed.

(** Every id converts, one of them to a key the database does not
    accept: the exception leaves the view when the queryset is run, after
    the task was created and before anything was linked or tagged. *)
Lemma apply_out_of_range db request cd pks :
  mapM int_of_str (getlist (POST request) "_selected_action") = Some pks →
  forallb key_in_range pks = false →
  apply db request cd
  = mkResult
      (set_documents_validationtask
         (documents_validationtask db
            ++ [new_task (cd_assigned_to cd) (user request) (Some (cd_tag cd)) (cd_note cd)])
         db)
      [] (inl OverflowError).
Proof.
  intros Hpks Hrange. unfold apply_assignment, ValidationTask_objects_create,
    Document_objects_filter_pk_in, fetch_all. simpl. by rewrite Hpks, Hrange.
Qed.

(** The body either has ids that convert to keys the database accepts,
    or raises with the task inserted and nothing else done. *)
Lemma apply_cases db request cd :
  (∃ pks,
     mapM int_of_str (getlist (POST request) "_selected_action") = Some pks ∧
     forallb key_in_range pks = true)
  ∨ (∃ e,
       apply db request cd
       = mkResult
           (set_documents_validationtask
              (documents_validationtask db
                 ++ [new_task (cd_assigned_to cd) (user request) (Some (cd_tag cd))
                       (cd_note cd)])
              db)
           [] (inl e)).
Proof.
  destruct (mapM int_of_str (getlist (POST request) "_selected_action")) as [pks|] eqn:Hp.
  - destruct (forallb key_in_range pks) eqn:Hrange.
    + left. by exists pks.
    + right. exists OverflowError. by apply (apply_out_of_range _ _ _ pks).
  - right. exists ValueError. by apply apply_unparsed.
Qed.

(** A redirect is the mark of a submission that was applied. *)
Lemma redirect_inv db request queryset url :
  response (view db request queryset) = inr (HttpResponseRedirect url) →
  contains (POST request) "apply" = true ∧
  ∃ cd pks,
    Form db (POST request) = ([], Some cd) ∧
    mapM int_of_str (getlist (POST request) "_selected_action") = Some pks ∧
    forallb key_in_range pks = true.
Proof.
  intros Hr. destruct (contains (POST request) "apply") eqn:Ha.
  2: { by rewrite view_display in Hr. }
  split; [done|].
  destruct (form_cases db (POST request)) as [[cd Hf]|(errors & Hne & Hf)].
  2: { by rewrite (view_invalid _ _ _ errors) in Hr. }
  rewrite (view_valid _ _ _ cd) in Hr by done.
  destruct (mapM int_of_str (getlist (POST request) "_selected_action")) as [pks|] eqn:Hp.
  - destruct (forallb key_in_range pks) eqn:Hrange; [by eauto|].
    by rewrite (apply_out_of_range _ _ _ pks) in Hr.
  - by rewrite apply_unparsed in Hr.
Qed.

Lemma mapM_elem {A B} (f : A → option B) (l : list A) (k : list B) :
  mapM f l = Some k → ∀ y, y ∈ k ↔ ∃ x, x ∈ l ∧ f x = Some y.
Proof.
  rewrite mapM_Some. induction 1 as [|x y' l k Hxy _ IH]; intros y.
  - split; [by intros ?%elem_of_nil|by intros (? & ?%elem_of_nil & _)].
  - rewrite elem_of_cons, IH. split.
    + intros [->|(x0 & ? & ?)]; [exists x|exists x0]; split; try done;
        [by left|by right].
    + intros (x0 & [->|Hin]%elem_of_cons & Hf); [left; congruence|right; eauto].
Qed.

(** ** More on the form *)

Lemma tag_error_recorded db data e :
  ModelChoiceField_clean int_of_str (documents_tag db) (get data "tag") = inl e →
  ("tag", e) ∈ (Form db data).1.
Proof.
  intros He. unfold AssignValidationTaskForm. simpl. rewrite He.
  destruct (clean__selected_action data),
    (ModelChoiceField_clean int_of_str (auth_user db) (get data "assigned_to"));
    simpl; rewrite ?elem_of_cons; auto.
Qed.

Lemma assigned_to_error_recorded db data e :
  ModelChoiceField_clean int_of_str (auth_user db) (get data "assigned_to") = inl e →
  ("assigned_to", e) ∈ (Form db data).1.
Proof.
  intros He. unfold AssignValidationTaskForm. simpl. rewrite He.
  destruct (clean__selected_action data); simpl; rewrite ?elem_of_cons; auto.
Qed.

Lemma selected_action_error_recorded db data :
  getlist data "_selected_action" = [] →
  ("_selected_action", required) ∈ (Form db data).1.
Proof.
  intros He. unfold AssignValidationTaskForm, clean__selected_action. simpl.
  rewrite He. simpl. by left.
Qed.

Lemma error_invalid db data err :
  err ∈ (Form db data).1 →
  ∃ errors, err ∈ errors ∧ errors ≠ [] ∧ Form db data = (errors, None).
Proof.
  intros Herr. destruct (form_cases db data) as [[cd Hf]|(errors & Hne & Hf)].
  - rewrite Hf in Herr. by apply elem_of_nil in Herr.
  - rewrite Hf in Herr. eauto.
Qed.

(** A blank choice is a [required] error; a choice that is not the key
    of a row is an [invalid_choice] error. *)
Lemma ModelChoiceField_clean_blank {A} (queryset : gmap Z A) value :
  value = None ∨ value = Some "" →
  ModelChoiceField_clean int_of_str queryset value = inl required.
Proof. by intros [->| ->]. Qed.

Lemma ModelChoiceField_clean_unresolved {A} (queryset : gmap Z A) s :
  s ≠ "" →
  (∀ k, int_of_str s = Some k → queryset !! k = None) →
  ModelChoiceField_clean int_of_str queryset (Some s) = inl invalid_choice.
Proof.
  intros Hs Hk. unfold ModelChoiceField_clean. destruct s as [|c s]; [done|].
  destruct (int_of_str (String c s)) as [k|]; [|done].
  by rewrite (Hk k).
Qed.

(** The form reads the database only through the tables of its two
    choice fields. *)
Lemma Form_ext db db' data :
  auth_user db' = auth_user db →
  documents_tag db' = documents_tag db →
  Form db' data = Form db data.
Proof. intros Hu Ht. unfold AssignValidationTaskForm. by rewrite Hu, Ht. Qed.



(** ** The claims *)

(** C1 (amended).  For every apply-phase submission whose fields
    validate and whose submitted ids all convert to keys that the
    database accepts, the action creates exactly one validation task; a
    key is linked to it exactly when it is the value of a submitted id
    and the key of an existing document; the success message reports the
    number of linked documents; ids without a document are dropped and
    the requester is redirected. *)
Theorem apply_links_resolved_documents db request queryset pks :
  contains (POST request) "apply" = true →
  valid db (POST request) = true →
  mapM int_of_str (getlist (POST request) "_selected_action") = Some pks →
  forallb key_in_range pks = true →
  ∃ task,
    documents_validationtask (db_after (view db request queryset))
    = documents_validationtask db ++ [task] ∧
    (∀ k, k ∈ ValidationTask.documents task ↔
          (∃ s, s ∈ getlist (POST request) "_selected_action" ∧ int_of_str s = Some k)
          ∧ is_Some (documents_document db !! k)) ∧
    messages (view db request queryset)
    = [success (size (ValidationTask.documents task))] ∧
    response (view db request queryset) = inr (HttpResponseRedirect ".").
Proof.
  intros Ha [cd Hf]%valid_cleaned Hpks Hrange.
  rewrite (view_valid _ _ _ cd) by done.
  destruct (apply_parsed db request cd pks Hpks Hrange) as (Hr & Hm & _ & _ & Hv & _).
  eexists. split; [exact Hv|]. simpl. split_and!; [|by rewrite size_dom|done].
  intros k. rewrite elem_of_dom. unfold is_Some.
  setoid_rewrite map_lookup_filter_Some. simpl.
  rewrite <- (mapM_elem _ _ _ Hpks k). naive_solver.
Qed.

(** C2.  The task list shows a superuser every task; a requester in
    the Staff group who is not a superuser exactly the tasks they
    created or are assigned to, each once and in table order; any
    other requester nothing. *)
Theorem get_queryset_visibility request db :
  (User.is_superuser (fields (user request)) = true →
     qs_rows (get_queryset request) db = documents_validationtask db) ∧
  (User.is_superuser (fields (user request)) = false →
   "Staff" ∈ User.groups (fields (user request)) →
     qs_rows (get_queryset request) db
     = List.filter
         (λ t, bool_decide (ValidationTask.created_by t = pk (user request)
                            ∨ ValidationTask.assigned_to t = pk (user request)))
         (documents_validationtask db)) ∧
  (User.is_superuser (fields (user request)) = false →
   "Staff" ∉ User.groups (fields (user request)) →
     qs_rows (get_queryset request) db = []).
Proof.
  unfold qs_rows, get_queryset, in_group. split_and!.
  - intros ->. simpl. induction (documents_validationtask db) as [|t l IH]; simpl;
      [done|by rewrite IH].
  - intros -> Hg. simpl. rewrite bool_decide_eq_true_2 by done.
    apply List.filter_ext. intros t. unfold qs_or, qs_filter, qs_all. simpl.
    apply eq_true_iff_eq. rewrite orb_true_iff, !bool_decide_eq_true. done.
  - intros -> Hg. simpl. rewrite bool_decide_eq_false_2 by done.
    unfold qs_none. induction (documents_validationtask db) as [|t l IH]; done.
Qed.

(** C7.  [has_add_permission] answers true exactly for a superuser or
    a member of the Staff group, and false for everyone else. *)
Theorem has_add_permission_iff request :
  has_add_permission request = true ↔
  User.is_superuser (fields (user request)) = true
  ∨ "Staff" ∈ User.groups (fields (user request)).
Proof.
  unfold has_add_permission, in_group.
  destruct (User.is_superuser (fields (user request))); simpl.
  - naive_solver.
  - case_bool_decide; naive_solver.
Qed.

(** C3.  When the action succeeds, the created task stores the due
    date that the submitted tag has in the tag table at that moment; the
    date is a field of the task row itself.  The expression that sets it
    yields no due date when there is no tag. *)
Theorem due_date_is_tag_snapshot :
  (∀ db request queryset,
     response (view db request queryset) = inr (HttpResponseRedirect ".") →
     ∃ tag task,
       ModelChoiceField_clean int_of_str (documents_tag db) (get (POST request) "tag")
       = inr tag ∧
       documents_tag db !! pk tag = Some (fields tag) ∧
       documents_validationtask (db_after (view db request queryset))
       = documents_validationtask db ++ [task] ∧
       ValidationTask.tag task = Some (pk tag) ∧
       ValidationTask.due_date task = Tag.due_date (fields tag)) ∧
  (∀ assigned_to created_by note,
     ValidationTask.due_date (new_task assigned_to created_by None note) = None).
Proof.
  split; [|done].
  intros db request queryset (Ha & cd & pks & Hf & Hpks & Hrange)%redirect_inv.
  rewrite (view_valid _ _ _ cd) by done.
  destruct (apply_parsed db request cd pks Hpks Hrange) as (_ & _ & _ & _ & Hv & _).
  destruct (cleaned_fields _ _ _ Hf) as (_ & _ & Htag & _).
  exists (cd_tag cd). eexists. split; [done|].
  split; [by apply ModelChoiceField_clean_inr in Htag as (? & _ & _ & _ & ?)|].
  split; [exact Hv|]. done.
Qed.

(** C4 (amended).  The tag is required: an apply-phase submission that
    supplies no tag (the field absent or empty) is rejected with the
    error [required] on the field [tag]; the form is shown again, no
    task is created and the database is unchanged. *)
Theorem tag_is_required db request queryset :
  contains (POST request) "apply" = true →
  get (POST request) "tag" = None ∨ get (POST request) "tag" = Some "" →
  ∃ errors,
    ("tag", required) ∈ errors ∧
    view db request queryset
    = mkResult db [] (inr (form_page (Bound (POST request) errors) queryset)).
Proof.
  intros Ha Htag.
  destruct (error_invalid db (POST request) ("tag", required))
    as (errors & Hin & Hne & Hf).
  { apply tag_error_recorded. by apply ModelChoiceField_clean_blank. }
  exists errors. split; [done|]. by apply view_invalid.
Qed.

(** C5.  An apply-phase submission that fails validation shows the form
    again, bound to the submitted data and carrying at least one field
    error; no message is queued and the database (tasks, links, tags of
    documents) is exactly what it was. *)
Theorem invalid_submission_changes_nothing db request queryset :
  contains (POST request) "apply" = true →
  valid db (POST request) = false →
  ∃ errors,
    errors ≠ [] ∧
    view db request queryset
    = mkResult db [] (inr (form_page (Bound (POST request) errors) queryset)).
Proof.
  intros Ha (errors & Hne & Hf)%invalid_errors.
  exists errors. split; [done|]. by apply view_invalid.
Qed.

(** From one recorded error to a form that is not valid. *)
Local Ltac invalid_by Hin :=
  split; [|exact Hin];
  apply invalid_errors;
  let errors := fresh "errors" in
  destruct (error_invalid _ _ _ Hin) as (errors & _ & ? & ?);
  exists errors; split; assumption.

(** The failures the claim names do fail validation. *)
Lemma blank_assignee_invalid db data :
  get data "assigned_to" = None ∨ get data "assigned_to" = Some "" →
  valid db data = false ∧ ("assigned_to", required) ∈ (Form db data).1.
Proof.
  intros Hb.
  assert (("assigned_to", required) ∈ (Form db data).1) as Hin.
  { apply assigned_to_error_recorded. by apply ModelChoiceField_clean_blank. }
  invalid_by Hin.
Qed.

Lemma unresolved_assignee_invalid db data s :
  get data "assigned_to" = Some s → s ≠ "" →
  (∀ k, int_of_str s = Some k → auth_user db !! k = None) →
  valid db data = false ∧ ("assigned_to", invalid_choice) ∈ (Form db data).1.
Proof.
  intros Hg Hs Hk.
  assert (("assigned_to", invalid_choice) ∈ (Form db data).1) as Hin.
  { apply assigned_to_error_recorded. rewrite Hg.
    by apply ModelChoiceField_clean_unresolved. }
  invalid_by Hin.
Qed.

Lemma unresolved_tag_invalid db data s :
  get data "tag" = Some s → s ≠ "" →
  (∀ k, int_of_str s = Some k → documents_tag db !! k = None) →
  valid db data = false ∧ ("tag", invalid_choice) ∈ (Form db data).1.
Proof.
  intros Hg Hs Hk.
  assert (("tag", invalid_choice) ∈ (Form db data).1) as Hin.
  { apply tag_error_recorded. rewrite Hg.
    by apply ModelChoiceField_clean_unresolved. }
  invalid_by Hin.
Qed.


(** C8.  A call of the action either creates no task or appends exactly
    one, whose creator is the requester.  Outside the apply phase the
    form is shown unbound, with the assignee pre-filled with the
    requester and the submitted selection carried over. *)
Theorem creator_is_requester_assignee_prefilled db request queryset :
  (documents_validationtask (db_after (view db request queryset))
   = documents_validationtask db
   ∨ ∃ task,
       documents_validationtask (db_after (view db request queryset))
       = documents_validationtask db ++ [task] ∧
       ValidationTask.created_by task = pk (user request)) ∧
  (contains (POST request) "apply" = true →
   valid db (POST request) = true →
   ∃ task,
     documents_validationtask (db_after (view db request queryset))
     = documents_validationtask db ++ [task] ∧
     ValidationTask.created_by task = pk (user request)) ∧
  (contains (POST request) "apply" = false →
   view db request queryset
   = mkResult db []
       (inr (form_page
               (Unbound (getlist (POST request) "_selected_action") (user request))
               queryset))).
Proof.
  assert (contains (POST request) "apply" = true →
          valid db (POST request) = true →
          ∃ task,
            documents_validationtask (db_after (view db request queryset))
            = documents_validationtask db ++ [task] ∧
            ValidationTask.created_by task = pk (user request)) as Hcreated.
  { intros Ha [cd Hf]%valid_cleaned. rewrite (view_valid _ _ _ cd) by done.
    destruct (apply_cases db request cd) as [(pks & Hpks & Hrange)|[e ->]].
    - destruct (apply_parsed db request cd pks Hpks Hrange) as (_ & _ & _ & _ & Hv & _).
      eexists. split; [exact Hv|done].
    - eexists. split; [reflexivity|done]. }
  split_and!; [|done|apply view_display].
  destruct (contains (POST request) "apply") eqn:Ha.
  - destruct (valid db (POST request)) eqn:Hvalid.
    + right. by apply Hcreated.
    + left. apply invalid_errors in Hvalid as (errors & Hne & Hf).
      by rewrite (view_invalid _ _ _ errors).
  - left. by rewrite view_display.
Qed.

(** C9 (amended).  When the submitted id list is not empty, every id
    converts to a key that the database accepts and no key is that of an
    existing document, a submission with valid fields succeeds: exactly
    one task is created, linked to no document; the document table is
    unchanged; the reported count is 0.  An empty id list does not
    validate: the field [_selected_action] is required, the form is shown
    again and nothing is created. *)
Theorem unresolved_ids_create_empty_task :
  (∀ db request queryset pks,
     contains (POST request) "apply" = true →
     valid db (POST request) = true →
     mapM int_of_str (getlist (POST request) "_selected_action") = Some pks →
     forallb key_in_range pks = true →
     (∀ k, k ∈ pks → documents_document db !! k = None) →
     getlist (POST request) "_selected_action" ≠ [] ∧
     ∃ task,
       documents_validationtask (db_after (view db request queryset))
       = documents_validationtask db ++ [task] ∧
       ValidationTask.documents task = ∅ ∧
       documents_document (db_after (view db request queryset)) = documents_document db ∧
       messages (view db request queryset) = [success 0] ∧
       response (view db request queryset) = inr (HttpResponseRedirect ".")) ∧
  (∀ db request queryset,
     contains (POST request) "apply" = true →
     getlist (POST request) "_selected_action" = [] →
     ∃ errors,
       ("_selected_action", required) ∈ errors ∧
       view db request queryset
       = mkResult db [] (inr (form_page (Bound (POST request) errors) queryset))).
Proof.
  split.
  - intros db request queryset pks Ha [cd Hf]%valid_cleaned Hpks Hrange Hnone.
    split; [by apply cleaned_fields in Hf as [? _]|].
    rewrite (view_valid _ _ _ cd) by done.
    destruct (apply_parsed db request cd pks Hpks Hrange) as (Hr & Hm & _ & _ & Hv & Hd).
    assert (filter (λ kv : Z * Document.t, kv.1 ∈ pks) (documents_document db) = ∅)
      as Hempty.
    { apply map_empty. intros k. apply map_lookup_filter_None. right.
      intros row Hrow Hk. simpl in Hk. by rewrite (Hnone k Hk) in Hrow. }
    simpl in Hm, Hv. rewrite Hempty in Hm, Hv. rewrite dom_empty_L in Hv.
    eexists. split; [exact Hv|]. split_and!; [done| |done|done].
    apply map_eq. intros k. rewrite Hd. case_decide as Hk; [|done].
    by rewrite (Hnone k Hk).
  - intros db request queryset Ha Hempty.
    destruct (error_invalid db (POST request) ("_selected_action", required))
      as (errors & Hin & Hne & Hf).
    { by apply selected_action_error_recorded. }
    exists errors. split; [done|]. by apply view_invalid.
Qed.

(** C10.  In the apply phase the queryset handed to the action plays no
    part in what is written: for the same database and the same
    submission, two calls with different querysets leave the same
    database (task, links, tags) and queue the same messages, and when
    the form validates the whole outcome is the same.  What is linked is
    read from the ids of the submission. *)
Theorem apply_ignores_queryset db request queryset1 queryset2 :
  contains (POST request) "apply" = true →
  db_after (view db request queryset1) = db_after (view db request queryset2) ∧
  messages (view db request queryset1) = messages (view db request queryset2) ∧
  (valid db (POST request) = true →
   view db request queryset1 = view db request queryset2).
Proof.
  intros Ha.
  destruct (form_cases db (POST request)) as [[cd Hf]|(errors & Hne & Hf)].
  - by rewrite !(view_valid _ _ _ cd).
  - rewrite !(view_invalid _ _ _ errors) by done. split_and!; [done|done|].
    intros [cd Hcd]%valid_cleaned. congruence.
Qed.

(** ** Beyond the claims: every way a call of the action can end *)

Lemma DB_ext db1 db2 :
  auth_user db1 = auth_user db2 →
  documents_tag db1 = documents_tag db2 →
  documents_document db1 = documents_document db2 →
  documents_validationtask db1 = documents_validationtask db2 →
  db1 = db2.
Proof. destruct db1, db2. simpl. by intros -> -> -> ->. Qed.

(** A call shows the form and writes nothing, or raises after creating
    the task, or runs the whole body. *)
Lemma view_outcomes db request queryset :
  (∃ f, view db request queryset = mkResult db [] (inr (form_page f queryset)))
  ∨ (∃ cd e,
       contains (POST request) "apply" = true ∧
       Form db (POST request) = ([], Some cd) ∧
       view db request queryset
       = mkResult
           (set_documents_validationtask
              (documents_validationtask db
                 ++ [new_task (cd_assigned_to cd) (user request) (Some (cd_tag cd))
                       (cd_note cd)])
              db)
           [] (inl e))
  ∨ (∃ cd pks,
       contains (POST request) "apply" = true ∧
       Form db (POST request) = ([], Some cd) ∧
       mapM int_of_str (getlist (POST request) "_selected_action") = Some pks ∧
       forallb key_in_range pks = true ∧
       view db request queryset = apply db request cd).
Proof.
  destruct (contains (POST request) "apply") eqn:Ha.
  2: { left. eexists. by apply view_display. }
  destruct (form_cases db (POST request)) as [[cd Hf]|(errors & Hne & Hf)].
  2: { left. eexists. by apply view_invalid. }
  right.
  destruct (apply_cases db request cd) as [(pks & Hpks & Hrange)|[e He]].
  - right. exists cd, pks. split_and!; try done. by apply view_valid.
  - left. exists cd, e. split_and!; try done.
    by rewrite (view_valid _ _ _ cd).
Qed.

Lemma tags_add_prefix tag tags : tags `prefix_of` tags_add tag tags.
Proof.
  unfold tags_add. case_bool_decide; [done|]. by apply prefix_app_r.
Qed.

(** X1.  Whatever the request and however the call ends, the action
    leaves the user and tag tables as they were, adds and removes no
    document, changes no title, and only ever extends a document's tag
    list at its end; a document whose key is the value of no submitted
    id keeps its row. *)
Theorem action_frame db request queryset :
  auth_user (db_after (view db request queryset)) = auth_user db ∧
  documents_tag (db_after (view db request queryset)) = documents_tag db ∧
  dom (documents_document (db_after (view db request queryset)))
  = dom (documents_document db) ∧
  ∀ k row,
    documents_document db !! k = Some row →
    ∃ row',
      documents_document (db_after (view db request queryset)) !! k = Some row' ∧
      Document.title row' = Document.title row ∧
      Document.tags row `prefix_of` Document.tags row' ∧
      ((∀ s, s ∈ getlist (POST request) "_selected_action" → int_of_str s ≠ Some k) →
       row' = row).
Proof.
  destruct (view_outcomes db request queryset)
    as [[f ->]|[(cd & e & _ & _ & ->)|(cd & pks & _ & _ & Hpks & Hrange & ->)]].
  - split_and!; try done. intros k row Hrow. exists row. done.
  - split_and!; try done. intros k row Hrow. exists row. done.
  - destruct (apply_parsed db request cd pks Hpks Hrange) as (_ & _ & Hu & Ht & _ & Hd).
    split_and!; [done|done| |].
    + apply set_eq. intros k. rewrite !elem_of_dom, Hd.
      case_decide; [by rewrite fmap_is_Some|done].
    + intros k row Hrow. rewrite Hd, Hrow. case_decide as Hk.
      * exists (tagged (pk (cd_tag cd)) row). simpl.
        split_and!; [done|done|apply tags_add_prefix|].
        intros Hno. apply (mapM_elem _ _ _ Hpks) in Hk as (s & Hs & Hsk).
        by destruct (Hno s Hs).
      * exists row. done.
Qed.

(** X2.  When the form validates and one submitted id does not convert
    to a key, the exception leaves the action with the task already
    created: one task is appended, created by the requester and linked to
    no document; no message is queued and no document is touched, even
    if other submitted ids are keys of existing documents. *)
Theorem unconvertible_id_leaves_unlinked_task db request queryset s :
  contains (POST request) "apply" = true →
  valid db (POST request) = true →
  s ∈ getlist (POST request) "_selected_action" →
  int_of_str s = None →
  response (view db request queryset) = inl ValueError ∧
  messages (view db request queryset) = [] ∧
  documents_document (db_after (view db request queryset)) = documents_document db ∧
  ∃ task,
    documents_validationtask (db_after (view db request queryset))
    = documents_validationtask db ++ [task] ∧
    ValidationTask.documents task = ∅ ∧
    ValidationTask.created_by task = pk (user request).
Proof.
  intros Ha [cd Hf]%valid_cleaned Hs Hnone.
  rewrite (view_valid _ _ _ cd) by done.
  assert (mapM int_of_str (getlist (POST request) "_selected_action") = None) as Hp.
  { apply mapM_None, list.Exists_exists. by exists s. }
  rewrite (apply_unparsed _ _ _ Hp). simpl.
  split_and!; try done. eexists. split_and!; done.
Qed.

(** ** Beyond the claims: the form *)

Lemma Form_all_ok db data a t n :
  getlist data "_selected_action" ≠ [] →
  ModelChoiceField_clean int_of_str (auth_user db) (get data "assigned_to") = inr a →
  ModelChoiceField_clean int_of_str (documents_tag db) (get data "tag") = inr t →
  clean_note py_strip data = inr n →
  Form db data = ([], Some (mkCleaned a t n)).
Proof.
  intros Hsel Ha Ht Hn. unfold AssignValidationTaskForm, clean__selected_action.
  rewrite Ha, Ht, Hn. by destruct (getlist data "_selected_action").
Qed.

Lemma clean_note_inr data n :
  clean_note py_strip data = inr n ↔
  n = note_of data ∧ contains_nul (note_of data) = false.
Proof.
  unfold clean_note, note_of.
  destruct (get data "note") as [[|c s]|]; try (split; [by intros [= <-]|by intros [-> _]]).
  case_bool_decide as Hs.
  - rewrite Hs. split; [by intros [= <-]|by intros [-> _]].
  - destruct (contains_nul (py_strip (String c s))) eqn:Hnul.
    + split; [done|]. by intros [_ ?].
    + split; [by intros [= <-]|by intros [-> _]].
Qed.

(** X3.  The form validates exactly when at least one id is submitted,
    the assignee and the tag are each a non-empty text that converts to
    the key of an existing user, respectively tag, and the note, once
    stripped, holds no U+0000.  No other condition is checked: not that
    an id is the key of a document, nor what the requester may do. *)
Theorem form_valid_iff db data :
  valid db data = true ↔
  getlist data "_selected_action" ≠ [] ∧
  (∃ s k, get data "assigned_to" = Some s ∧ s ≠ "" ∧ int_of_str s = Some k
          ∧ is_Some (auth_user db !! k)) ∧
  (∃ s k, get data "tag" = Some s ∧ s ≠ "" ∧ int_of_str s = Some k
          ∧ is_Some (documents_tag db !! k)) ∧
  contains_nul (note_of data) = false.
Proof.
  rewrite valid_cleaned. split.
  - intros [cd Hf]. destruct (cleaned_fields _ _ _ Hf) as (Hsel & Hu & Ht & Hn).
    apply ModelChoiceField_clean_inr in Hu as (su & Hgu & Hsu & Hku & Hru).
    apply ModelChoiceField_clean_inr in Ht as (st & Hgt & Hst & Hkt & Hrt).
    apply clean_note_inr in Hn as [_ Hn].
    split_and!; [done| | |done].
    + exists su, (pk (cd_assigned_to cd)). by rewrite Hru.
    + exists st, (pk (cd_tag cd)). by rewrite Hrt.
  - intros (Hsel & (su & ku & Hgu & Hsu & Hku & [ru Hru])
                 & (st & kt & Hgt & Hst & Hkt & [rt Hrt]) & Hn).
    exists (mkCleaned (Instance ku ru) (Instance kt rt) (note_of data)).
    apply Form_all_ok; [done| | |].
    + apply ModelChoiceField_clean_inr. exists su. done.
    + apply ModelChoiceField_clean_inr. exists st. done.
    + by apply clean_note_inr.
Qed.

(** X4.  The note is optional and stored stripped: the task a successful
    call creates carries the empty note when none was submitted (or an
    empty one), and otherwise the stripped text of the last submitted
    note, which holds no U+0000. *)
Theorem created_note_is_stripped db request queryset :
  response (view db request queryset) = inr (HttpResponseRedirect ".") →
  ∃ task,
    documents_validationtask (db_after (view db request queryset))
    = documents_validationtask db ++ [task] ∧
    ValidationTask.note task = note_of (POST request) ∧
    contains_nul (ValidationTask.note task) = false.
Proof.
  intros (Ha & cd & pks & Hf & Hpks & Hrange)%redirect_inv.
  rewrite (view_valid _ _ _ cd) by done.
  destruct (apply_parsed db request cd pks Hpks Hrange) as (_ & _ & _ & _ & Hv & _).
  destruct (cleaned_fields _ _ _ Hf) as (_ & _ & _ & [Hnote Hn]%clean_note_inr).
  eexists. split; [exact Hv|]. simpl. by rewrite Hnote.
Qed.

(** ** Beyond the claims: what a successful call leaves in the database *)

(** X5.  Duplicate-free tag lists are an invariant of the action: if no
    document carries a tag twice before the call, none does after it,
    whatever the request and however the call ends. *)
Theorem tag_lists_stay_duplicate_free db request queryset :
  map_Forall (λ _ row, NoDup (Document.tags row)) (documents_document db) →
  map_Forall (λ _ row, NoDup (Document.tags row))
    (documents_document (db_after (view db request queryset))).
Proof.
  intros Hinv.
  destruct (view_outcomes db request queryset)
    as [[f ->]|[(cd & e & _ & _ & ->)|(cd & pks & _ & _ & Hpks & Hrange & ->)]]; [done|done|].
  destruct (apply_parsed db request cd pks Hpks Hrange) as (_ & _ & _ & _ & _ & Hd).
  intros k row' Hrow'. rewrite Hd in Hrow'. case_decide.
  - apply fmap_Some in Hrow' as (row & Hrow & ->). simpl.
    apply tags_add_NoDup. by apply (Hinv k).
  - by apply (Hinv k).
Qed.


Lemma size_list_to_set_le (l : list Z) :
  (size (list_to_set l : gset Z) ≤ length l)%nat.
Proof.
  induction l as [|x l IH].
  - change (list_to_set [] : gset Z) with (∅ : gset Z). by rewrite size_empty.
  - rewrite list_to_set_cons, size_union_alt, size_singleton. simpl.
    pose proof (subseteq_size (list_to_set l ∖ {[x]}) (list_to_set l : gset Z)) as Hle.
    specialize (Hle ltac:(set_solver)). lia.
Qed.

(** X7.  The "Documents" column of the task list shows, for the task a
    successful call creates, the number the success message reports; it
    is at most the number of submitted ids and at most the number of
    documents in the table. *)
Theorem documents_column_matches_reported_count db request queryset :
  response (view db request queryset) = inr (HttpResponseRedirect ".") →
  ∃ task,
    documents_validationtask (db_after (view db request queryset))
    = documents_validationtask db ++ [task] ∧
    messages (view db request queryset) = [success (get_documents_count task)] ∧
    (get_documents_count task ≤ length (getlist (POST request) "_selected_action"))%nat ∧
    (get_documents_count task ≤ size (documents_document db))%nat.
Proof.
  intros (Ha & cd & pks & Hf & Hpks & Hrange)%redirect_inv.
  rewrite (view_valid _ _ _ cd) by done.
  destruct (apply_parsed db request cd pks Hpks Hrange) as (_ & Hm & _ & _ & Hv & _).
  eexists. split; [exact Hv|]. unfold get_documents_count. simpl.
  rewrite size_dom. split_and!; [done| |apply map_size_filter].
  rewrite <- size_dom.
  assert (length pks = length (getlist (POST request) "_selected_action")) as <-.
  { apply mapM_Some in Hpks. symmetry. by eapply Forall2_length. }
  etrans; [|apply size_list_to_set_le]. apply subseteq_size.
  intros k [row [_ Hk]%map_lookup_filter_Some]%elem_of_dom.
  by apply elem_of_list_to_set.
Qed.

(** Two id lists with the same members convert alike. *)
Lemma mapM_same_members (ids ids' : list string) :
  (∀ s, s ∈ ids' ↔ s ∈ ids) →
  match mapM int_of_str ids, mapM int_of_str ids' with
  | Some pks, Some pks' => ∀ k, k ∈ pks' ↔ k ∈ pks
  | None, None => True
  | _, _ => False
  end.
Proof.
  intros Hmem.
  destruct (mapM int_of_str ids) as [pks|] eqn:Hp,
           (mapM int_of_str ids') as [pks'|] eqn:Hp'.
  - intros k. rewrite (mapM_elem _ _ _ Hp k), (mapM_elem _ _ _ Hp' k).
    by setoid_rewrite Hmem.
  - apply mapM_None, list.Exists_exists in Hp' as (s & Hs & Hnone).
    apply Hmem in Hs. apply (mk_is_Some), mapM_is_Some in Hp.
    rewrite list.Forall_forall in Hp. destruct (Hp s Hs) as [k Hk]. simpl in Hk. congruence.
  - apply mapM_None, list.Exists_exists in Hp as (s & Hs & Hnone).
    apply Hmem in Hs. apply (mk_is_Some), mapM_is_Some in Hp'.
    rewrite list.Forall_forall in Hp'. destruct (Hp' s Hs) as [k Hk]. simpl in Hk. congruence.
  - done.
Qed.

Lemma forallb_same_members {A} (f : A → bool) (l l' : list A) :
  (∀ x, x ∈ l' ↔ x ∈ l) → forallb f l' = forallb f l.
Proof.
  intros Hmem. apply eq_true_iff_eq. rewrite !forallb_forall.
  setoid_rewrite <- list_elem_of_In. by setoid_rewrite Hmem.
Qed.

(** X8.  In the apply phase only the membership of the submitted id list
    matters: replacing the list by one with the same members (another
    order, repeated ids) leaves the same database and the same messages,
    and, when the form validates, the same response. *)
Theorem id_order_and_repeats_are_irrelevant db request queryset ids :
  contains (POST request) "apply" = true →
  (∀ s, s ∈ ids ↔ s ∈ getlist (POST request) "_selected_action") →
  db_after (view db (mkRequest (user request) (<["_selected_action" := ids]> (POST request)))
              queryset)
  = db_after (view db request queryset) ∧
  messages (view db (mkRequest (user request) (<["_selected_action" := ids]> (POST request)))
              queryset)
  = messages (view db request queryset) ∧
  (valid db (POST request) = true →
   response (view db (mkRequest (user request) (<["_selected_action" := ids]> (POST request)))
               queryset)
   = response (view db request queryset)).
Proof.
  intros Ha Hmem.
  set (data' := <["_selected_action" := ids]> (POST request)).
  set (request' := mkRequest (user request) data').
  assert (getlist data' "_selected_action" = ids) as Hids.
  { unfold getlist, data'. by rewrite lookup_insert_eq. }
  assert (∀ key, key ≠ "_selected_action" → get data' key = get (POST request) key) as Hget.
  { intros key Hkey. unfold get, data'. by rewrite lookup_insert_ne. }
  assert (contains data' "apply" = true) as Ha'.
  { unfold contains, data' in *. by rewrite lookup_insert_ne. }
  assert (Form db data' = Form db (POST request)) as HForm.
  { unfold AssignValidationTaskForm, clean__selected_action, clean_note.
    rewrite Hids, !Hget by done.
    destruct ids as [|i ids], (getlist (POST request) "_selected_action") as [|j l]; try done.
    - exfalso. eapply not_elem_of_nil, Hmem. left.
    - exfalso. eapply not_elem_of_nil, Hmem. left. }
  destruct (form_cases db (POST request)) as [[cd Hf]|(errors & Hne & Hf)].
  2: { rewrite (view_invalid db request' queryset errors), (view_invalid _ _ _ errors);
         try done; [|by rewrite <- Hf].
       split_and!; [done|done|]. intros [? ?]%valid_cleaned. congruence. }
  rewrite (view_valid db request' queryset cd), (view_valid _ _ _ cd);
    try done; [|by rewrite <- Hf].
  pose proof (mapM_same_members (getlist (POST request) "_selected_action") ids Hmem) as Hsame.
  destruct (mapM int_of_str (getlist (POST request) "_selected_action")) as [pks|] eqn:Hp,
           (mapM int_of_str ids) as [pks'|] eqn:Hp'; try done.
  - rewrite <- Hids in Hp'.
    pose proof (forallb_same_members key_in_range pks pks' Hsame) as Hsamerange.
    destruct (forallb key_in_range pks) eqn:Hrange.
    2: { by rewrite (apply_out_of_range db request cd pks Hp Hrange),
                    (apply_out_of_range db request' cd pks' Hp' Hsamerange). }
    destruct (apply_parsed db request cd pks Hp Hrange) as (Hr & Hm & Hu & Ht & Hv & Hd).
    destruct (apply_parsed db request' cd pks' Hp' Hsamerange)
      as (Hr' & Hm' & Hu' & Ht' & Hv' & Hd').
    assert (filter (λ kv : Z * Document.t, kv.1 ∈ pks') (documents_document db)
            = filter (λ kv : Z * Document.t, kv.1 ∈ pks) (documents_document db)) as Hfound.
    { apply map_filter_ext. intros k row _. simpl. apply Hsame. }
    simpl in Hm', Hv'. rewrite Hfound in Hm', Hv'.
    split_and!; [|by rewrite Hm, Hm'|by rewrite Hr, Hr'].
    apply DB_ext; [by rewrite Hu, Hu'|by rewrite Ht, Ht'| |by rewrite Hv, Hv'].
    apply map_eq. intros k. rewrite Hd, Hd'.
    destruct (decide (k ∈ pks)) as [Hk|Hk].
    + rewrite decide_True; [done|by apply Hsame].
    + rewrite decide_False; [done|by rewrite Hsame].
  - rewrite <- Hids in Hp'.
    by rewrite (apply_unparsed db request cd Hp), (apply_unparsed db request' cd Hp').
Qed.

(** ** Beyond the claims: the task list *)

(** Which rows the task list shows. *)
Lemma visible_iff request db t :
  t ∈ qs_rows (get_queryset request) db ↔
  t ∈ documents_validationtask db ∧
  (User.is_superuser (fields (user request)) = true
   ∨ "Staff" ∈ User.groups (fields (user request))
     ∧ (ValidationTask.created_by t = pk (user request)
        ∨ ValidationTask.assigned_to t = pk (user request))).
Proof.
  unfold qs_rows, get_queryset, in_group.
  rewrite list_elem_of_In, List.filter_In, <- list_elem_of_In.
  destruct (User.is_superuser (fields (user request))); simpl.
  - unfold qs_all. naive_solver.
  - case_bool_decide as Hg.
    + unfold qs_or, qs_filter, qs_all. simpl.
      rewrite orb_true_iff, !bool_decide_eq_true. naive_solver.
    + unfold qs_none. naive_solver.
Qed.

(** X9.  The two policies of the task admin agree: a requester who may
    not add a task is shown no task at all, and a requester who may add
    one is shown every task they created and every task assigned to
    them. *)
Theorem add_permission_and_visibility_agree request db :
  (has_add_permission request = false →
   qs_rows (get_queryset request) db = []) ∧
  (has_add_permission request = true →
   ∀ t, t ∈ documents_validationtask db →
        ValidationTask.created_by t = pk (user request)
        ∨ ValidationTask.assigned_to t = pk (user request) →
        t ∈ qs_rows (get_queryset request) db).
Proof.
  unfold has_add_permission, in_group. split.
  - intros Hno. apply elem_of_nil_inv. intros t [_ Hsee]%visible_iff.
    destruct (User.is_superuser (fields (user request))); [done|]. simpl in Hno.
    case_bool_decide; [done|]. naive_solver.
  - intros Hyes t Ht Hmine. apply visible_iff. split; [done|].
    destruct (User.is_superuser (fields (user request))); [by left|]. simpl in Hyes.
    case_bool_decide; [|done]. by right.
Qed.

(** X10.  A task created through the document action shows up in the
    task list of every requester who may add tasks and is a superuser,
    its creator or its assignee; to a requester who may not add tasks it
    is not shown, not even to the one who created it. *)
Theorem created_task_visibility db request queryset viewer :
  response (view db request queryset) = inr (HttpResponseRedirect ".") →
  ∃ task,
    documents_validationtask (db_after (view db request queryset))
    = documents_validationtask db ++ [task] ∧
    (has_add_permission viewer = true →
     User.is_superuser (fields (user viewer)) = true
     ∨ pk (user viewer) = pk (user request)
     ∨ pk (user viewer) = ValidationTask.assigned_to task →
     task ∈ qs_rows (get_queryset viewer) (db_after (view db request queryset))) ∧
    (has_add_permission viewer = false →
     task ∉ qs_rows (get_queryset viewer) (db_after (view db request queryset))).
Proof.
  intros (Ha & cd & pks & Hf & Hpks & Hrange)%redirect_inv.
  rewrite (view_valid _ _ _ cd) by done.
  destruct (apply_parsed db request cd pks Hpks Hrange) as (_ & _ & _ & _ & Hv & _).
  eexists. split; [exact Hv|]. unfold has_add_permission, in_group. split.
  - intros Hyes Hwho. apply visible_iff. rewrite Hv. split.
    { apply elem_of_app. right. by left. }
    destruct (User.is_superuser (fields (user viewer))); [by left|]. simpl in Hyes.
    case_bool_decide; [|done]. right. split; [done|]. simpl. naive_solver.
  - intros Hno [_ Hsee]%visible_iff.
    destruct (User.is_superuser (fields (user viewer))); [done|]. simpl in Hno.
    case_bool_decide; [done|]. naive_solver.
Qed.

(** ** Beyond the claims: submitting twice *)

(** The documents the ids select are the same before and after the tags
    were added. *)
Lemma found_dom_stable (docs docs' : gmap Z Document.t) (pks : list Z) tag :
  (∀ k, docs' !! k = if decide (k ∈ pks) then tagged tag <$> docs !! k else docs !! k) →
  dom (filter (λ kv : Z * Document.t, kv.1 ∈ pks) docs')
  = dom (filter (λ kv : Z * Document.t, kv.1 ∈ pks) docs).
Proof.
  intros Hd. apply set_eq. intros k. rewrite !elem_of_dom. unfold is_Some.
  setoid_rewrite map_lookup_filter_Some. simpl. rewrite Hd. split.
  - intros (row' & Hrow' & Hk). rewrite decide_True in Hrow' by done.
    apply fmap_Some in Hrow' as (row & Hrow & _). eauto.
  - intros (row & Hrow & Hk). rewrite decide_True, Hrow by done. simpl. eauto.
Qed.

(** X11.  Adding the tag is idempotent, creating the task is not: when a
    submission succeeds and is submitted again unchanged, the second call
    succeeds too, reports the same count, and appends a second task equal
    to the first, with the same links. *)
Theorem resubmission_creates_second_task db request queryset :
  response (view db request queryset) = inr (HttpResponseRedirect ".") →
  ∃ task,
    documents_validationtask (db_after (view db request queryset))
    = documents_validationtask db ++ [task] ∧
    documents_validationtask
      (db_after (view (db_after (view db request queryset)) request queryset))
    = documents_validationtask db ++ [task; task] ∧
    messages (view (db_after (view db request queryset)) request queryset)
    = messages (view db request queryset) ∧
    response (view (db_after (view db request queryset)) request queryset)
    = inr (HttpResponseRedirect ".").
Proof.
  intros (Ha & cd & pks & Hf & Hpks & Hrange)%redirect_inv.
  rewrite (view_valid _ _ _ cd) by done.
  destruct (apply_parsed db request cd pks Hpks Hrange) as (_ & Hm & Hu & Ht & Hv & Hd).
  set (db' := db_after (apply db request cd)) in *.
  assert (Form db' (POST request) = ([], Some cd)) as Hf'.
  { by rewrite (Form_ext db db'). }
  rewrite (view_valid _ _ _ cd) by done.
  destruct (apply_parsed db' request cd pks Hpks Hrange) as (Hr' & Hm' & _ & _ & Hv' & _).
  pose proof (found_dom_stable _ _ _ _ Hd) as Hdom.
  eexists. split; [exact Hv|]. split_and!; [| |done].
  - rewrite Hv', Hv. simpl. rewrite Hdom, <- app_assoc. done.
  - rewrite Hm', Hm. simpl. by rewrite <- !size_dom, Hdom.
Qed.

(** ** Beyond the claims: when the action succeeds, and for whom *)

(** X12.  Which of four endings a call takes is decided by
    whether [apply] was posted, whether the form validates, whether every
    submitted id converts to a key, and whether the database accepts
    every such key.  The call redirects when all four hold, raises
    [ValueError] when an id does not convert, raises [OverflowError] when
    all ids convert and a key is not accepted, and shows the form when
    [apply] is missing or the form is invalid; neither the documents in
    the table nor the requester play a part. *)
Theorem action_outcome_iff db request queryset :
  (response (view db request queryset) = inr (HttpResponseRedirect ".") ↔
   contains (POST request) "apply" = true ∧ valid db (POST request) = true
   ∧ ∃ pks, mapM int_of_str (getlist (POST request) "_selected_action") = Some pks
            ∧ forallb key_in_range pks = true) ∧
  (response (view db request queryset) = inl ValueError ↔
   contains (POST request) "apply" = true ∧ valid db (POST request) = true
   ∧ mapM int_of_str (getlist (POST request) "_selected_action") = None) ∧
  (response (view db request queryset) = inl OverflowError ↔
   contains (POST request) "apply" = true ∧ valid db (POST request) = true
   ∧ ∃ pks, mapM int_of_str (getlist (POST request) "_selected_action") = Some pks
            ∧ forallb key_in_range pks = false) ∧
  ((∃ f, response (view db request queryset) = inr (form_page f queryset)) ↔
   contains (POST request) "apply" = false ∨ valid db (POST request) = false).
Proof.
  destruct (contains (POST request) "apply") eqn:Ha.
  2: { rewrite view_display by done. simpl.
       split_and!; split; try naive_solver; intros _; eauto. }
  destruct (form_cases db (POST request)) as [[cd Hf]|(errors & Hne & Hf)].
  2: { assert (valid db (POST request) = false) as -> by (apply invalid_errors; eauto).
       rewrite (view_invalid _ _ _ errors) by done. simpl.
       split_and!; split; try naive_solver; intros _; eauto. }
  assert (valid db (POST request) = true) as -> by (apply valid_cleaned; eauto).
  rewrite (view_valid _ _ _ cd) by done.
  destruct (mapM int_of_str (getlist (POST request) "_selected_action")) as [pks|] eqn:Hp.
  - destruct (forallb key_in_range pks) eqn:Hrange.
    + destruct (apply_parsed db request cd pks Hp Hrange) as (-> & _).
      split_and!; split; try naive_solver;
        first [ by intros [f [=]]
              | by intros _; split_and!; eauto
              | intros (_ & _ & ? & [= <-] & ?); congruence ].
    + rewrite (apply_out_of_range _ _ _ pks Hp Hrange). simpl.
      split_and!; split; try naive_solver;
        first [ by intros [f [=]]
              | by intros _; split_and!; eauto
              | intros (_ & _ & ? & [= <-] & ?); congruence ].
  - rewrite (apply_unparsed _ _ _ Hp). simpl.
    split_and!; split; try naive_solver;
      first [by intros (_ & _ & ? & ? & _)|by intros [f [=]]].
Qed.

(** X13.  In the apply phase the action asks nothing about the
    requester: for the same database and submission, two requesters get
    the same response and the same messages and leave the same user, tag
    and document tables; the tasks each call appends are the same row
    for row except for the creator, which is the requester of the call. *)
Theorem apply_does_not_depend_on_requester db data queryset user1 user2 :
  contains data "apply" = true →
  response (view db (mkRequest user1 data) queryset)
  = response (view db (mkRequest user2 data) queryset) ∧
  messages (view db (mkRequest user1 data) queryset)
  = messages (view db (mkRequest user2 data) queryset) ∧
  auth_user (db_after (view db (mkRequest user1 data) queryset))
  = auth_user (db_after (view db (mkRequest user2 data) queryset)) ∧
  documents_tag (db_after (view db (mkRequest user1 data) queryset))
  = documents_tag (db_after (view db (mkRequest user2 data) queryset)) ∧
  documents_document (db_after (view db (mkRequest user1 data) queryset))
  = documents_document (db_after (view db (mkRequest user2 data) queryset)) ∧
  ∃ created,
    documents_validationtask (db_after (view db (mkRequest user1 data) queryset))
    = documents_validationtask db ++ created ∧
    documents_validationtask (db_after (view db (mkRequest user2 data) queryset))
    = documents_validationtask db
        ++ (ValidationTask.set_created_by (pk user2) <$> created) ∧
    Forall (λ t, ValidationTask.created_by t = pk user1) created.
Proof.
  intros Ha.
  destruct (form_cases db data) as [[cd Hf]|(errors & Hne & Hf)].
  2: { rewrite (view_invalid db (mkRequest user1 data) queryset errors),
               (view_invalid db (mkRequest user2 data) queryset errors) by done.
       split_and!; try done. exists []. simpl. by rewrite app_nil_r. }
  rewrite (view_valid db (mkRequest user1 data) queryset cd),
          (view_valid db (mkRequest user2 data) queryset cd) by done.
  destruct (mapM int_of_str (getlist data "_selected_action")) as [pks|] eqn:Hp.
  - destruct (forallb key_in_range pks) eqn:Hrange.
    + destruct (apply_parsed db (mkRequest user1 data) cd pks Hp Hrange)
        as (Hr1 & Hm1 & Hu1 & Ht1 & Hv1 & Hd1).
      destruct (apply_parsed db (mkRequest user2 data) cd pks Hp Hrange)
        as (Hr2 & Hm2 & Hu2 & Ht2 & Hv2 & Hd2).
      split_and!; [congruence|congruence|congruence|congruence| |].
      * apply map_eq. intros k. by rewrite Hd1, Hd2.
      * eexists. split; [exact Hv1|]. split; [exact Hv2|].
        by apply Forall_singleton.
    + rewrite (apply_out_of_range db (mkRequest user1 data) cd pks),
              (apply_out_of_range db (mkRequest user2 data) cd pks) by done.
      split_and!; try done. eexists. split; [reflexivity|]. split; [reflexivity|].
      by apply Forall_singleton.
  - rewrite (apply_unparsed db (mkRequest user1 data) cd),
            (apply_unparsed db (mkRequest user2 data) cd) by done.
    split_and!; try done. eexists. split; [reflexivity|]. split; [reflexivity|].
    by apply Forall_singleton.
Qed.

(** X14.  When the form validates, every submitted id converts and one
    of the keys is not accepted by the database, the exception leaves
    the action when the queryset is run, with the task already created:
    one task is appended, created by the requester and linked to no
    document; no message is queued and no document is touched, even if
    other submitted ids are keys of existing documents. *)
Theorem out_of_range_id_leaves_unlinked_task db request queryset pks k :
  contains (POST request) "apply" = true →
  valid db (POST request) = true →
  mapM int_of_str (getlist (POST request) "_selected_action") = Some pks →
  k ∈ pks →
  key_in_range k = false →
  response (view db request queryset) = inl OverflowError ∧
  messages (view db request queryset) = [] ∧
  documents_document (db_after (view db request queryset)) = documents_document db ∧
  ∃ task,
    documents_validationtask (db_after (view db request queryset))
    = documents_validationtask db ++ [task] ∧
    ValidationTask.documents task = ∅ ∧
    ValidationTask.created_by task = pk (user request).
Proof.
  intros Ha [cd Hf]%valid_cleaned Hpks Hk Hout.
  rewrite (view_valid _ _ _ cd) by done.
  assert (forallb key_in_range pks = false) as Hrange.
  { apply not_true_is_false. rewrite forallb_forall. intros Hall.
    apply list_elem_of_In, Hall in Hk. congruence. }
  rewrite (apply_out_of_range _ _ _ pks Hpks Hrange). simpl.
  split_and!; try done. eexists. split_and!; done.
Qed.

End Properties.

(** The scenario of the spec: three ids submitted, two of them existing. *)
Lemma apply_links_resolved_documents_witness :
  ∃ task,
    documents_validationtask (db_after (Example.view Example.db0 Example.request_scenario ∅))
    = documents_validationtask Example.db0 ++ [task] ∧
    (∀ k, k ∈ ValidationTask.documents task ↔
          (∃ s, s ∈ getlist (POST Example.request_scenario) "_selected_action"
                ∧ Example.int_of_str s = Some k)
          ∧ is_Some (documents_document Example.db0 !! k)) ∧
    messages (Example.view Example.db0 Example.request_scenario ∅)
    = [success (size (ValidationTask.documents task))] ∧
    response (Example.view Example.db0 Example.request_scenario ∅)
    = inr (HttpResponseRedirect ".").
Proof.
  apply (apply_links_resolved_documents Example.int_of_str Example.py_strip Example.key_in_range
           Example.db0 Example.request_scenario ∅ [1; 2; 999]); reflexivity.
Defined.

(** The scenario again: tag 7 is due on 2024-06-01, and so is the task. *)
Lemma due_date_is_tag_snapshot_witness :
  ∃ tag task,
    ModelChoiceField_clean Example.int_of_str (documents_tag Example.db0)
      (get (POST Example.request_scenario) "tag") = inr tag ∧
    documents_tag Example.db0 !! pk tag = Some (fields tag) ∧
    documents_validationtask (db_after (Example.view Example.db0 Example.request_scenario ∅))
    = documents_validationtask Example.db0 ++ [task] ∧
    ValidationTask.tag task = Some (pk tag) ∧
    ValidationTask.due_date task = Tag.due_date (fields tag).
Proof.
  apply (proj1 (due_date_is_tag_snapshot Example.int_of_str Example.py_strip Example.key_in_range)
           Example.db0 Example.request_scenario ∅).
  reflexivity.
Defined.

(** Alice, in the Staff group, sees the task she created and the task
    assigned to her. *)
Lemma get_queryset_visibility_witness :
  qs_rows (get_queryset Example.request_display) Example.db1
  = [Example.task_scenario; Example.task_for_alice].
Proof.
  destruct (get_queryset_visibility Example.request_display Example.db1) as (_ & H & _).
  rewrite H; [reflexivity|reflexivity|by left].
Defined.

Lemma has_add_permission_iff_witness :
  has_add_permission Example.request_display = true.
Proof. apply has_add_permission_iff. right. by left. Defined.

Lemma tag_is_required_witness :
  ∃ errors,
    ("tag", required) ∈ errors ∧
    Example.view Example.db0 Example.request_no_tag ∅
    = mkResult Example.db0 []
        (inr (form_page (Bound (POST Example.request_no_tag) errors) ∅)).
Proof.
  apply (tag_is_required Example.int_of_str Example.py_strip Example.key_in_range
           Example.db0 Example.request_no_tag ∅); [reflexivity|by left].
Defined.

(** C4, at a submission with a valid assignee and two existing documents
    and no tag: the form is shown again with the error on [tag], and no
    task is created. *)
Lemma submission_without_tag_rejected :
  contains (POST Example.request_no_tag) "apply" = true ∧
  get (POST Example.request_no_tag) "tag" = None ∧
  ModelChoiceField_clean Example.int_of_str (auth_user Example.db0)
    (get (POST Example.request_no_tag) "assigned_to") = inr Example.bob ∧
  getlist (POST Example.request_no_tag) "_selected_action" = ["1"; "2"] ∧
  Example.view Example.db0 Example.request_no_tag ∅
  = mkResult Example.db0 []
      (inr (form_page (Bound Example.post_no_tag [("tag", required)]) ∅)) ∧
  documents_validationtask
    (db_after (Example.view Example.db0 Example.request_no_tag ∅)) = [].
Proof. split_and!; vm_compute; reflexivity. Qed.

(** The assignee left blank. *)
Lemma invalid_submission_changes_nothing_witness :
  ∃ errors,
    errors ≠ [] ∧
    Example.view Example.db0 Example.request_blank_assignee ∅
    = mkResult Example.db0 []
        (inr (form_page (Bound (POST Example.request_blank_assignee) errors) ∅)).
Proof.
  apply (invalid_submission_changes_nothing Example.int_of_str Example.py_strip Example.key_in_range
           Example.db0 Example.request_blank_assignee ∅); reflexivity.
Defined.

(** C1, at two submissions whose fields validate.  With the ids ["1"]
    and ["abc"], the conversion of ["abc"] raises after the task was
    created.  With the ids ["1"] and ["99999999999999999999"], both
    convert, and running the query raises on the second after the task
    was created.  Either way the task is linked to nothing although
    document 1 exists, and no count is reported. *)
Lemma malformed_id_raises :
  (contains (POST Example.request_malformed_id) "apply" = true ∧
   is_valid Example.int_of_str Example.py_strip Example.db0
     (POST Example.request_malformed_id) = true ∧
   getlist (POST Example.request_malformed_id) "_selected_action" = ["1"; "abc"] ∧
   Example.int_of_str "1" = Some 1 ∧
   is_Some (documents_document Example.db0 !! 1) ∧
   response (Example.view Example.db0 Example.request_malformed_id ∅) = inl ValueError ∧
   messages (Example.view Example.db0 Example.request_malformed_id ∅) = [] ∧
   ValidationTask.documents
     <$> documents_validationtask
           (db_after (Example.view Example.db0 Example.request_malformed_id ∅))
   = [∅]) ∧
  (contains (POST Example.request_out_of_range_id) "apply" = true ∧
   is_valid Example.int_of_str Example.py_strip Example.db0
     (POST Example.request_out_of_range_id) = true ∧
   getlist (POST Example.request_out_of_range_id) "_selected_action"
   = ["1"; "99999999999999999999"] ∧
   mapM Example.int_of_str
     (getlist (POST Example.request_out_of_range_id) "_selected_action")
   = Some [1; 99999999999999999999] ∧
   is_Some (documents_document Example.db0 !! 1) ∧
   response (Example.view Example.db0 Example.request_out_of_range_id ∅)
   = inl OverflowError ∧
   messages (Example.view Example.db0 Example.request_out_of_range_id ∅) = [] ∧
   ValidationTask.documents
     <$> documents_validationtask
           (db_after (Example.view Example.db0 Example.request_out_of_range_id ∅))
   = [∅]).
Proof. split; split_and!; try (vm_compute; reflexivity); by eexists. Qed.


(** The scenario creates a task whose creator is alice; the display
    phase pre-fills the assignee with alice. *)
Lemma creator_is_requester_assignee_prefilled_witness :
  (∃ task,
     documents_validationtask (db_after (Example.view Example.db0 Example.request_scenario ∅))
     = documents_validationtask Example.db0 ++ [task] ∧
     ValidationTask.created_by task = pk Example.alice) ∧
  Example.view Example.db0 Example.request_display ∅
  = mkResult Example.db0 [] (inr (form_page (Unbound ["1"; "2"] Example.alice) ∅)).
Proof.
  split.
  - apply (proj1 (proj2 (creator_is_requester_assignee_prefilled
                           Example.int_of_str Example.py_strip Example.key_in_range
                           Example.db0 Example.request_scenario ∅))); reflexivity.
  - apply (proj2 (proj2 (creator_is_requester_assignee_prefilled
                           Example.int_of_str Example.py_strip Example.key_in_range
                           Example.db0 Example.request_display ∅))); reflexivity.
Defined.

(** Two ids, neither the key of a document. *)
Lemma unresolved_ids_create_empty_task_witness :
  getlist (POST Example.request_unknown_ids) "_selected_action" ≠ [] ∧
  ∃ task,
    documents_validationtask
      (db_after (Example.view Example.db0 Example.request_unknown_ids ∅))
    = documents_validationtask Example.db0 ++ [task] ∧
    ValidationTask.documents task = ∅ ∧
    documents_document (db_after (Example.view Example.db0 Example.request_unknown_ids ∅))
    = documents_document Example.db0 ∧
    messages (Example.view Example.db0 Example.request_unknown_ids ∅) = [success 0] ∧
    response (Example.view Example.db0 Example.request_unknown_ids ∅)
    = inr (HttpResponseRedirect ".").
Proof.
  apply (proj1 (unresolved_ids_create_empty_task Example.int_of_str Example.py_strip Example.key_in_range)
           Example.db0 Example.request_unknown_ids ∅ [998; 999]);
    try reflexivity.
  intros k Hk.
  apply elem_of_cons in Hk as [->|Hk]; [reflexivity|].
  apply elem_of_cons in Hk as [->|Hk]; [reflexivity|].
  by apply elem_of_nil in Hk.
Defined.

(** C9, at two submissions with a valid assignee and a valid tag.  With
    the single id ["99999999999999999999"], which converts and is the
    key of no document, running the query raises after the task was
    created, and no count is reported.  With no id at all, the form does
    not validate: it is shown again with the error on
    [_selected_action], and no task is created. *)
Lemma unresolved_ids_can_fail :
  (contains (POST Example.request_only_out_of_range_id) "apply" = true ∧
   is_valid Example.int_of_str Example.py_strip Example.db0
     (POST Example.request_only_out_of_range_id) = true ∧
   mapM Example.int_of_str
     (getlist (POST Example.request_only_out_of_range_id) "_selected_action")
   = Some [99999999999999999999] ∧
   documents_document Example.db0 !! 99999999999999999999 = None ∧
   response (Example.view Example.db0 Example.request_only_out_of_range_id ∅)
   = inl OverflowError ∧
   messages (Example.view Example.db0 Example.request_only_out_of_range_id ∅) = [] ∧
   length (documents_validationtask
             (db_after (Example.view Example.db0 Example.request_only_out_of_range_id ∅)))
   = 1%nat) ∧
  (contains (POST Example.request_no_ids) "apply" = true ∧
   getlist (POST Example.request_no_ids) "_selected_action" = [] ∧
   ModelChoiceField_clean Example.int_of_str (auth_user Example.db0)
     (get (POST Example.request_no_ids) "assigned_to") = inr Example.bob ∧
   ModelChoiceField_clean Example.int_of_str (documents_tag Example.db0)
     (get (POST Example.request_no_ids) "tag") = inr (Instance 7 Example.urgent) ∧
   Example.view Example.db0 Example.request_no_ids ∅
   = mkResult Example.db0 []
       (inr (form_page (Bound Example.post_no_ids [("_selected_action", required)]) ∅)) ∧
   documents_validationtask
     (db_after (Example.view Example.db0 Example.request_no_ids ∅)) = []).
Proof. split; split_and!; vm_compute; reflexivity. Qed.

(** The scenario, once with no document selected and once with every
    document selected. *)
Lemma apply_ignores_queryset_witness :
  db_after (Example.view Example.db0 Example.request_scenario ∅)
  = db_after (Example.view Example.db0 Example.request_scenario
                (documents_document Example.db0)) ∧
  messages (Example.view Example.db0 Example.request_scenario ∅)
  = messages (Example.view Example.db0 Example.request_scenario
                (documents_document Example.db0)) ∧
  (is_valid Example.int_of_str Example.py_strip Example.db0 (POST Example.request_scenario)
   = true →
   Example.view Example.db0 Example.request_scenario ∅
   = Example.view Example.db0 Example.request_scenario (documents_document Example.db0)).
Proof.
  apply (apply_ignores_queryset Example.int_of_str Example.py_strip Example.key_in_range
           Example.db0 Example.request_scenario ∅ (documents_document Example.db0)).
  reflexivity.
Defined.

(** The outcome of the spec's scenario, computed: one task, linked to
    documents 1 and 2 and due on 2024-06-01; both documents carry tag 7
    once; two documents are reported. *)
Example scenario_outcome :
  documents_validationtask (db_after (Example.view Example.db0 Example.request_scenario ∅))
  = [Example.task_scenario] ∧
  documents_document (db_after (Example.view Example.db0 Example.request_scenario ∅))
  = {[ 1 := Document.mk "invoice" [7]; 2 := Document.mk "contract" [7] ]} ∧
  messages (Example.view Example.db0 Example.request_scenario ∅) = [success 2] ∧
  response (Example.view Example.db0 Example.request_scenario ∅)
  = inr (HttpResponseRedirect ".").
Proof. split_and!; vm_compute; reflexivity. Qed.

(** ** Witnesses of the properties beyond the claims *)

Lemma action_frame_witness :
  auth_user (db_after (Example.view Example.db0 Example.request_scenario ∅))
  = auth_user Example.db0 ∧
  documents_tag (db_after (Example.view Example.db0 Example.request_scenario ∅))
  = documents_tag Example.db0 ∧
  dom (documents_document (db_after (Example.view Example.db0 Example.request_scenario ∅)))
  = dom (documents_document Example.db0).
Proof.
  destruct (action_frame Example.int_of_str Example.py_strip Example.key_in_range
              Example.db0 Example.request_scenario ∅) as (H1 & H2 & H3 & _).
  by split_and!.
Defined.

Lemma unconvertible_id_leaves_unlinked_task_witness :
  response (Example.view Example.db0 Example.request_malformed_id ∅) = inl ValueError ∧
  messages (Example.view Example.db0 Example.request_malformed_id ∅) = [] ∧
  documents_document (db_after (Example.view Example.db0 Example.request_malformed_id ∅))
  = documents_document Example.db0 ∧
  ∃ task,
    documents_validationtask
      (db_after (Example.view Example.db0 Example.request_malformed_id ∅))
    = documents_validationtask Example.db0 ++ [task] ∧
    ValidationTask.documents task = ∅ ∧
    ValidationTask.created_by task = pk (user Example.request_malformed_id).
Proof.
  apply (unconvertible_id_leaves_unlinked_task Example.int_of_str Example.py_strip Example.key_in_range
           Example.db0 Example.request_malformed_id ∅ "abc");
    [reflexivity|reflexivity| |reflexivity].
  right. left.
Defined.

Lemma form_valid_iff_witness :
  is_valid Example.int_of_str Example.py_strip Example.db0 Example.post_scenario = true.
Proof.
  apply form_valid_iff. split_and!.
  - discriminate.
  - exists "2", 2. split_and!; [reflexivity|discriminate|reflexivity|by eexists].
  - exists "7", 7. split_and!; [reflexivity|discriminate|reflexivity|by eexists].
  - reflexivity.
Defined.

Lemma created_note_is_stripped_witness :
  ∃ task,
    documents_validationtask (db_after (Example.view Example.db0 Example.request_scenario ∅))
    = documents_validationtask Example.db0 ++ [task] ∧
    ValidationTask.note task = submitted_note Example.py_strip (POST Example.request_scenario) ∧
    contains_nul (ValidationTask.note task) = false.
Proof.
  apply (created_note_is_stripped Example.int_of_str Example.py_strip Example.key_in_range
           Example.db0 Example.request_scenario ∅).
  reflexivity.
Defined.

Lemma tag_lists_stay_duplicate_free_witness :
  map_Forall (λ _ row, NoDup (Document.tags row))
    (documents_document (db_after (Example.view Example.db0 Example.request_scenario ∅))).
Proof.
  apply (tag_lists_stay_duplicate_free Example.int_of_str Example.py_strip Example.key_in_range
           Example.db0 Example.request_scenario ∅).
  apply (bool_decide_unpack _). vm_compute. exact I.
Defined.


Lemma documents_column_matches_reported_count_witness :
  ∃ task,
    documents_validationtask (db_after (Example.view Example.db0 Example.request_scenario ∅))
    = documents_validationtask Example.db0 ++ [task] ∧
    messages (Example.view Example.db0 Example.request_scenario ∅)
    = [success (get_documents_count task)] ∧
    (get_documents_count task
     ≤ length (getlist (POST Example.request_scenario) "_selected_action"))%nat ∧
    (get_documents_count task ≤ size (documents_document Example.db0))%nat.
Proof.
  apply (documents_column_matches_reported_count Example.int_of_str Example.py_strip Example.key_in_range
           Example.db0 Example.request_scenario ∅).
  reflexivity.
Defined.

Lemma id_order_and_repeats_are_irrelevant_witness :
  db_after (Example.view Example.db0
              (mkRequest (user Example.request_scenario)
                 (<["_selected_action" := Example.ids_shuffled]>
                    (POST Example.request_scenario))) ∅)
  = db_after (Example.view Example.db0 Example.request_scenario ∅) ∧
  messages (Example.view Example.db0
              (mkRequest (user Example.request_scenario)
                 (<["_selected_action" := Example.ids_shuffled]>
                    (POST Example.request_scenario))) ∅)
  = messages (Example.view Example.db0 Example.request_scenario ∅) ∧
  (is_valid Example.int_of_str Example.py_strip Example.db0 (POST Example.request_scenario)
   = true →
   response (Example.view Example.db0
               (mkRequest (user Example.request_scenario)
                  (<["_selected_action" := Example.ids_shuffled]>
                     (POST Example.request_scenario))) ∅)
   = response (Example.view Example.db0 Example.request_scenario ∅)).
Proof.
  apply (id_order_and_repeats_are_irrelevant Example.int_of_str Example.py_strip Example.key_in_range
           Example.db0 Example.request_scenario ∅ Example.ids_shuffled); [reflexivity|].
  intros s.
  change (getlist (POST Example.request_scenario) "_selected_action")
    with ["1"; "2"; "999"].
  unfold Example.ids_shuffled. rewrite !elem_of_cons. tauto.
Defined.

(** Bob, in no group, may not add tasks and sees none; alice sees hers. *)
Lemma add_permission_and_visibility_agree_witness :
  qs_rows (get_queryset Example.request_bob) Example.db1 = [] ∧
  Example.task_for_alice ∈ qs_rows (get_queryset Example.request_display) Example.db1.
Proof.
  split.
  - apply (proj1 (add_permission_and_visibility_agree Example.request_bob Example.db1)).
    reflexivity.
  - apply (proj2 (add_permission_and_visibility_agree Example.request_display Example.db1)).
    + reflexivity.
    + right. right. left.
    + by right.
Defined.

Lemma created_task_visibility_witness :
  ∃ task,
    documents_validationtask (db_after (Example.view Example.db0 Example.request_scenario ∅))
    = documents_validationtask Example.db0 ++ [task] ∧
    (has_add_permission Example.request_display = true →
     User.is_superuser (fields (user Example.request_display)) = true
     ∨ pk (user Example.request_display) = pk (user Example.request_scenario)
     ∨ pk (user Example.request_display) = ValidationTask.assigned_to task →
     task ∈ qs_rows (get_queryset Example.request_display)
              (db_after (Example.view Example.db0 Example.request_scenario ∅))) ∧
    (has_add_permission Example.request_display = false →
     task ∉ qs_rows (get_queryset Example.request_display)
              (db_after (Example.view Example.db0 Example.request_scenario ∅))).
Proof.
  apply (created_task_visibility Example.int_of_str Example.py_strip Example.key_in_range
           Example.db0 Example.request_scenario ∅ Example.request_display).
  reflexivity.
Defined.

Lemma resubmission_creates_second_task_witness :
  ∃ task,
    documents_validationtask (db_after (Example.view Example.db0 Example.request_scenario ∅))
    = documents_validationtask Example.db0 ++ [task] ∧
    documents_validationtask
      (db_after (Example.view (db_after (Example.view Example.db0 Example.request_scenario ∅))
                   Example.request_scenario ∅))
    = documents_validationtask Example.db0 ++ [task; task] ∧
    messages (Example.view (db_after (Example.view Example.db0 Example.request_scenario ∅))
                Example.request_scenario ∅)
    = messages (Example.view Example.db0 Example.request_scenario ∅) ∧
    response (Example.view (db_after (Example.view Example.db0 Example.request_scenario ∅))
                Example.request_scenario ∅)
    = inr (HttpResponseRedirect ".").
Proof.
  apply (resubmission_creates_second_task Example.int_of_str Example.py_strip Example.key_in_range
           Example.db0 Example.request_scenario ∅).
  reflexivity.
Defined.

(** The four endings, at four submissions. *)
Lemma action_outcome_iff_witness :
  response (Example.view Example.db0 Example.request_scenario ∅)
  = inr (HttpResponseRedirect ".") ∧
  response (Example.view Example.db0 Example.request_malformed_id ∅) = inl ValueError ∧
  response (Example.view Example.db0 Example.request_out_of_range_id ∅)
  = inl OverflowError ∧
  ∃ f, response (Example.view Example.db0 Example.request_no_tag ∅) = inr (form_page f ∅).
Proof.
  split_and!.
  - destruct (action_outcome_iff Example.int_of_str Example.py_strip Example.key_in_range
                Example.db0 Example.request_scenario ∅) as (H & _).
    apply H. split_and!; [reflexivity|reflexivity|].
    exists [1; 2; 999]. split; reflexivity.
  - destruct (action_outcome_iff Example.int_of_str Example.py_strip Example.key_in_range
                Example.db0 Example.request_malformed_id ∅) as (_ & H & _).
    apply H. split_and!; reflexivity.
  - destruct (action_outcome_iff Example.int_of_str Example.py_strip Example.key_in_range
                Example.db0 Example.request_out_of_range_id ∅) as (_ & _ & H & _).
    apply H. split_and!; [reflexivity|reflexivity|].
    exists [1; 99999999999999999999]. split; reflexivity.
  - destruct (action_outcome_iff Example.int_of_str Example.py_strip Example.key_in_range
                Example.db0 Example.request_no_tag ∅) as (_ & _ & _ & H).
    apply H. right. reflexivity.
Defined.

Lemma apply_does_not_depend_on_requester_witness :
  response (Example.view Example.db0 (mkRequest Example.alice Example.post_scenario) ∅)
  = response (Example.view Example.db0 (mkRequest Example.bob Example.post_scenario) ∅) ∧
  messages (Example.view Example.db0 (mkRequest Example.alice Example.post_scenario) ∅)
  = messages (Example.view Example.db0 (mkRequest Example.bob Example.post_scenario) ∅) ∧
  documents_document
    (db_after (Example.view Example.db0 (mkRequest Example.alice Example.post_scenario) ∅))
  = documents_document
      (db_after (Example.view Example.db0 (mkRequest Example.bob Example.post_scenario) ∅)) ∧
  ∃ created,
    documents_validationtask
      (db_after (Example.view Example.db0 (mkRequest Example.alice Example.post_scenario) ∅))
    = documents_validationtask Example.db0 ++ created ∧
    documents_validationtask
      (db_after (Example.view Example.db0 (mkRequest Example.bob Example.post_scenario) ∅))
    = documents_validationtask Example.db0
        ++ (ValidationTask.set_created_by (pk Example.bob) <$> created) ∧
    Forall (λ t, ValidationTask.created_by t = pk Example.alice) created.
Proof.
  destruct (apply_does_not_depend_on_requester
              Example.int_of_str Example.py_strip Example.key_in_range
              Example.db0 Example.post_scenario ∅ Example.alice Example.bob)
    as (H1 & H2 & _ & _ & H3 & H4); [reflexivity|].
  by split_and!.
Defined.

Lemma out_of_range_id_leaves_unlinked_task_witness :
  response (Example.view Example.db0 Example.request_out_of_range_id ∅)
  = inl OverflowError ∧
  messages (Example.view Example.db0 Example.request_out_of_range_id ∅) = [] ∧
  documents_document (db_after (Example.view Example.db0 Example.request_out_of_range_id ∅))
  = documents_document Example.db0 ∧
  ∃ task,
    documents_validationtask
      (db_after (Example.view Example.db0 Example.request_out_of_range_id ∅))
    = documents_validationtask Example.db0 ++ [task] ∧
    ValidationTask.documents task = ∅ ∧
    ValidationTask.created_by task = pk (user Example.request_out_of_range_id).
Proof.
  apply (out_of_range_id_leaves_unlinked_task
           Example.int_of_str Example.py_strip Example.key_in_range
           Example.db0 Example.request_out_of_range_id ∅
           [1; 99999999999999999999] 99999999999999999999);
    [reflexivity|reflexivity|reflexivity| |reflexivity].
  right. left.
Defined.
